(** * Documenso: webhook handler, document page and 2FA dialog

    A shallow embedding of three source files of the application:

    - the Stripe webhook route ([handler]),
    - the document detail page ([DocumentPage]),
    - the two-factor re-authentication dialog ([DocumentActionAuth2FA]).

    JavaScript values are modelled as the code uses them: strings are
    sequences of code units (a character of a Rocq string stands for one
    code unit below 256), [null]/[undefined] are [None], objects used as
    dictionaries are finite maps, and numbers produced by [Number(...)]
    are IEEE binary64 values kept as exact rationals.

    Code outside these three files (the Stripe SDK, the PDF helpers, the
    data layer of the page, the caller of the dialog, [AppError]) is a
    parameter of the section that uses it. Awaited calls are run in
    program order. An exception is modelled where the control flow of
    the file depends on one: [constructEvent] throwing on a signature
    that does not verify, either callback of the dialog throwing inside
    its [try] block, the page's lookup rejecting into
    [.catch(() => null)];
    calls to the database, the cache, the file system and the PDF
    helpers of the webhook are taken to succeed. *)

From Stdlib Require Import ZArith QArith Qround String Ascii List Bool Lia.
From Stdlib Require Import Qpower Qfield.
From stdpp Require Import base option list gmap strings.

Close Scope Q_scope.
Local Open Scope Z_scope.
Local Open Scope string_scope.

(** ** JavaScript primitives used by the three files *)

Module JS.

(** A JavaScript number: [NaN], an infinity, or a finite binary64 value
    given by its sign and its magnitude (so that [-0] is [Fin true 0]). *)
Inductive Num : Type :=
| NaN : Num
| Inf (neg : bool) : Num
| Fin (neg : bool) (mag : Q) : Num.

(** [ToBoolean] on strings: only the empty string is falsy. *)
Definition truthy (s : string) : bool :=
  match s with
  | EmptyString => false
  | String _ _ => true
  end.

(** [ToBoolean] on [string | null | undefined]. *)
Definition truthy_opt (o : option string) : bool :=
  match o with
  | Some s => truthy s
  | None => false
  end.

(** [a || b] where [a : string | undefined] and [b : string | null]. *)
Definition or_else (a b : option string) : option string :=
  if truthy_opt a then a else b.

(** [a ?? d] with a string default. *)
Definition nullish (a : option string) (d : string) : string :=
  match a with
  | Some s => s
  | None => d
  end.

(** [ToBoolean] on numbers: [NaN], [+0] and [-0] are falsy. *)
Definition truthy_num (n : Num) : bool :=
  match n with
  | NaN => false
  | Inf _ => true
  | Fin _ q => negb (Qeq_bool q 0)
  end.

(** [Number.isNaN]. *)
Definition isNaN (n : Num) : bool :=
  match n with
  | NaN => true
  | _ => false
  end.

(** The signed rational value of a finite number. *)
Definition value (n : Num) : option Q :=
  match n with
  | Fin neg q => Some (if neg then Qopp q else q)
  | _ => None
  end.

(** Numeric equality with an integer, as a database filter [id = n]
    compares them: [NaN] and the infinities equal no integer, [-0]
    equals [0]. *)
Definition eq_int (n : Num) (z : Z) : bool :=
  match value n with
  | Some q => Qeq_bool q (inject_Z z)
  | None => false
  end.

(** *** Rounding a mathematical value to binary64 *)

Definition pow2 (k : Z) : Q := Qpower (2 # 1) k.

(** [floor (log2 q)] for a positive rational. *)
Definition ilog2 (q : Q) : Z :=
  let k := Z.log2 (Qnum q) - Z.log2 (Zpos (Qden q)) in
  if Qle_bool (pow2 k) q then k else k - 1.

Definition roundTiesToEven (q : Q) : Z :=
  let f := Qfloor q in
  match Qcompare (Qminus q (inject_Z f)) (1 # 2) with
  | Lt => f
  | Gt => f + 1
  | Eq => if Z.even f then f else f + 1
  end.

(** The binary64 value nearest to a non-negative rational, ties to even;
    [None] when it rounds to infinity. Subnormals share the exponent
    [-1074]. *)
Definition round64 (q : Q) : option Q :=
  if Qeq_bool q 0 then Some 0%Q
  else
    let e := Z.max (ilog2 q) (-1022) - 52 in
    let r := Qmult (inject_Z (roundTiesToEven (Qdiv q (pow2 e)))) (pow2 e) in
    if Qle_bool (pow2 1024) r then None else Some (Qred r).

Definition of_mv (neg : bool) (mv : Q) : Num :=
  match round64 mv with
  | Some q => Fin neg q
  | None => Inf neg
  end.

(** *** [StringToNumber] *)

Definition code (c : ascii) : N := N_of_ascii c.

(** [StrWhiteSpaceChar] below U+0100: TAB, LF, VT, FF, CR, SP, NBSP. *)
Definition is_ws (c : ascii) : bool :=
  let n := code c in
  ((9 <=? n) && (n <=? 13) || (n =? 32) || (n =? 160))%N.

Definition digit (base : N) (c : ascii) : option N :=
  let n := code c in
  let d :=
    if ((48 <=? n) && (n <=? 57))%N then Some (n - 48)%N
    else if ((97 <=? n) && (n <=? 102))%N then Some (n - 87)%N
    else if ((65 <=? n) && (n <=? 70))%N then Some (n - 55)%N
    else None in
  match d with
  | Some v => if (v <? base)%N then Some v else None
  | None => None
  end.

(** The longest prefix of digits in [base] (most significant first) and
    what follows it. *)
Fixpoint span_digits (base : N) (l : list ascii) : list N * list ascii :=
  match l with
  | c :: l' =>
      match digit base c with
      | Some d => let '(ds, rest) := span_digits base l' in (d :: ds, rest)
      | None => ([], l)
      end
  | [] => ([], [])
  end.

Definition digits_value (base : N) (ds : list N) : Z :=
  fold_left (fun acc d => acc * Z.of_N base + Z.of_N d) ds 0.

Definition pow10 (k : Z) : Q := Qpower (10 # 1) k.

(** [NonDecimalIntegerLiteral] after its two-character prefix. *)
Definition non_decimal (base : N) (l : list ascii) : Num :=
  match span_digits base l with
  | ((_ :: _) as ds, []) => of_mv false (inject_Z (digits_value base ds))
  | _ => NaN
  end.

(** [ExponentPart] (optional): the exponent, or [None] when what is left
    is no exponent part. *)
Definition exponent_part (l : list ascii) : option Z :=
  match l with
  | [] => Some 0
  | c :: l' =>
      if ((code c =? 101) || (code c =? 69))%N then
        let '(neg, l'') :=
          match l' with
          | s :: t =>
              if (code s =? 45)%N then (true, t)
              else if (code s =? 43)%N then (false, t)
              else (false, l')
          | [] => (false, l')
          end in
        match span_digits 10 l'' with
        | ((_ :: _) as ds, []) =>
            Some (if neg then - digits_value 10 ds else digits_value 10 ds)
        | _ => None
        end
      else None
  end.

(** [StrUnsignedDecimalLiteral] other than [Infinity]:
    [D+ . D* Exp?], [. D+ Exp?] or [D+ Exp?]; its mathematical value. *)
Definition unsigned_decimal (l : list ascii) : option Q :=
  let '(ip, rest) := span_digits 10 l in
  let '(dot, fp, rest') :=
    match rest with
    | c :: t =>
        if (code c =? 46)%N then
          let '(fp, r) := span_digits 10 t in (true, fp, r)
        else (false, [], rest)
    | [] => (false, [], rest)
    end in
  match ip, fp with
  | [], [] => None
  | _, _ =>
      match exponent_part rest' with
      | Some e =>
          Some (Qmult (inject_Z (digits_value 10 (ip ++ fp)))
                      (pow10 (e - Z.of_nat (length fp))))
      | None => None
      end
  end.

Definition Infinity_lit : list ascii := list_ascii_of_string "Infinity".

Definition str_decimal (neg : bool) (l : list ascii) : Num :=
  if decide (l = Infinity_lit) then Inf neg
  else
    match unsigned_decimal l with
    | Some mv => of_mv neg mv
    | None => NaN
    end.

Fixpoint drop_ws (l : list ascii) : list ascii :=
  match l with
  | c :: l' => if is_ws c then drop_ws l' else l
  | [] => []
  end.

Definition trim (l : list ascii) : list ascii :=
  rev (drop_ws (rev (drop_ws l))).

(** [StringToNumber]: white space is trimmed, the empty string is [+0],
    a [0x]/[0o]/[0b] literal takes no sign, and anything outside the
    [StrNumericLiteral] grammar is [NaN]. *)
Definition StringToNumber (s : string) : Num :=
  match trim (list_ascii_of_string s) with
  | [] => Fin false 0%Q
  | (c :: t) as l =>
      let radix :=
        match t with
        | p :: t' =>
            if (code c =? 48)%N then
              if ((code p =? 120) || (code p =? 88))%N then Some (16%N, t')
              else if ((code p =? 111) || (code p =? 79))%N then Some (8%N, t')
              else if ((code p =? 98) || (code p =? 66))%N then Some (2%N, t')
              else None
            else None
        | [] => None
        end in
      match radix with
      | Some (base, ds) => non_decimal base ds
      | None =>
          if (code c =? 45)%N then str_decimal true t
          else if (code c =? 43)%N then str_decimal false t
          else str_decimal false l
      end
  end.

(** [Number(v)] for [v : string]. *)
Definition Number (s : string) : Num := StringToNumber s.

(** [Number(v)] for [v : string | null]: [Number(null)] is [+0]. *)
Definition Number_nullable (v : option string) : Num :=
  match v with
  | Some s => Number s
  | None => Fin false 0%Q
  end.

(** [Number] on the ids a route or a checkout can carry. *)
Example Number_digits : Number "12" = Fin false (12 # 1).
Proof. vm_compute. reflexivity. Qed.

Example Number_padded : Number " 42 " = Fin false (42 # 1).
Proof. vm_compute. reflexivity. Qed.

Example Number_empty : Number "" = Fin false 0.
Proof. vm_compute. reflexivity. Qed.

Example Number_minus_zero : Number "-0" = Fin true 0.
Proof. vm_compute. reflexivity. Qed.

Example Number_letters : Number "abc" = NaN.
Proof. vm_compute. reflexivity. Qed.

Example Number_suffix : Number "12px" = NaN.
Proof. vm_compute. reflexivity. Qed.

Example Number_hex : Number "0x1F" = Fin false (31 # 1).
Proof. vm_compute. reflexivity. Qed.

Example Number_fraction : Number "1.5e3" = Fin false (1500 # 1).
Proof. vm_compute. reflexivity. Qed.

Example Number_underflow : truthy_num (Number "1e-400") = false.
Proof. vm_compute. reflexivity. Qed.

Example Number_overflow : Number "1e400" = Inf false.
Proof. vm_compute. reflexivity. Qed.

Example Number_rounds : Number "9007199254740993" = Fin false (9007199254740992 # 1).
Proof. vm_compute. reflexivity. Qed.


(** *** Decimal integers *)

(** The character of a decimal digit and the string of a digit list
    (most significant first). *)
Definition digit_char (d : N) : ascii := ascii_of_N (48 + d).

Definition digits_string (ds : list N) : string :=
  string_of_list_ascii (map digit_char ds).

Lemma roundTiesToEven_int (q : Q) (z : Z) :
  (q == inject_Z z)%Q -> roundTiesToEven q = z.
Proof.
  intros H. unfold roundTiesToEven.
  assert (Hf : Qfloor q = z) by (rewrite H; apply Qfloor_Z).
  rewrite Hf.
  assert (Hlt : (Qminus q (inject_Z z) < 1 # 2)%Q).
  { rewrite H. unfold Qminus. rewrite Qplus_opp_r. reflexivity. }
  assert (Hc : Qcompare (Qminus q (inject_Z z)) (1 # 2) = Lt)
    by (apply Qlt_alt; exact Hlt).
  rewrite Hc. reflexivity.
Qed.

Lemma pow2_nonneg (m : Z) : 0 <= m -> (pow2 m == inject_Z (2 ^ m))%Q.
Proof. intros H. unfold pow2. symmetry. apply (Zpower_Qpower 2 m H). Qed.

Lemma ilog2_int_bounds (n : Z) :
  0 < n < 2 ^ 53 -> -1 <= ilog2 (inject_Z n) <= 52.
Proof.
  intros [Hpos Hlt]. unfold ilog2. simpl.
  assert (0 <= Z.log2 n < 53).
  { split; [apply Z.log2_nonneg|]. apply Z.log2_lt_pow2; lia. }
  destruct (Qle_bool _ _); lia.
Qed.

(** An integer below [2^53] is a binary64 value: rounding leaves it. *)
Lemma round64_int (n : Z) :
  0 <= n < 2 ^ 53 ->
  exists q, round64 (inject_Z n) = Some q /\ (q == inject_Z n)%Q.
Proof.
  intros [Hn Hlt]. unfold round64.
  destruct (Qeq_bool (inject_Z n) 0) eqn:Hz.
  - exists 0%Q. split; [reflexivity|]. apply Qeq_bool_iff in Hz.
    symmetry. exact Hz.
  - assert (Hpos : 0 < n).
    { destruct (Z.eq_dec n 0) as [->|]; [discriminate Hz | lia]. }
    pose proof (ilog2_int_bounds n (conj Hpos Hlt)) as Hk.
    set (k := ilog2 (inject_Z n)) in *.
    rewrite (Z.max_l k (-1022)) by lia.
    set (m := 52 - k).
    assert (Hm : 0 <= m) by (unfold m; lia).
    replace (k - 52) with (- m) by (unfold m; lia).
    assert (Hp : (pow2 (- m) == / inject_Z (2 ^ m))%Q).
    { unfold pow2. rewrite Qpower_opp. apply Qinv_comp.
      apply (pow2_nonneg m Hm). }
    assert (Hnz : ~ (inject_Z (2 ^ m) == 0)%Q).
    { intros E. apply (inject_Z_injective (2 ^ m) 0) in E.
      pose proof (Z.pow_pos_nonneg 2 m). lia. }
    assert (Hx : (Qdiv (inject_Z n) (pow2 (- m)) == inject_Z (n * 2 ^ m))%Q).
    { rewrite Hp, inject_Z_mult. unfold Qdiv. rewrite Qinv_involutive.
      reflexivity. }
    rewrite (roundTiesToEven_int _ _ Hx).
    assert (Hr : (Qmult (inject_Z (n * 2 ^ m)) (pow2 (- m)) == inject_Z n)%Q).
    { rewrite Hp, inject_Z_mult. field. exact Hnz. }
    destruct (Qle_bool (pow2 1024) _) eqn:Hle.
    + exfalso. apply Qle_bool_iff in Hle. rewrite Hr in Hle.
      rewrite (pow2_nonneg 1024) in Hle by lia.
      rewrite <- Zle_Qle in Hle.
      assert (2 ^ 53 < 2 ^ 1024) by (apply Z.pow_lt_mono_r; lia). lia.
    + eexists. split; [reflexivity|]. rewrite Qred_correct. exact Hr.
Qed.

Lemma code_digit_char (d : N) : (d < 10)%N -> code (digit_char d) = (48 + d)%N.
Proof.
  intros H. unfold code, digit_char. apply N_ascii_embedding. lia.
Qed.

Lemma digit_char_not_ws (d : N) : (d < 10)%N -> is_ws (digit_char d) = false.
Proof.
  intros H. unfold is_ws. rewrite (code_digit_char d H).
  repeat match goal with
  | |- context [(?a <=? ?b)%N] => destruct (N.leb_spec a b)
  | |- context [(?a =? ?b)%N] => destruct (N.eqb_spec a b)
  end; simpl; try reflexivity; lia.
Qed.

Lemma digit_digit_char (d : N) : (d < 10)%N -> digit 10 (digit_char d) = Some d.
Proof.
  intros H. unfold digit. rewrite (code_digit_char d H).
  destruct (N.leb_spec 48 (48 + d)); [|lia].
  destruct (N.leb_spec (48 + d) 57); [|lia]. simpl.
  replace (48 + d - 48)%N with d by lia.
  destruct (N.ltb_spec d 10); [reflexivity | lia].
Qed.

Lemma span_digits_digit_chars (ds : list N) :
  Forall (fun d => (d < 10)%N) ds ->
  span_digits 10 (map digit_char ds) = (ds, []).
Proof.
  induction 1 as [|d ds Hd _ IH]; simpl; [reflexivity|].
  rewrite (digit_digit_char d Hd), IH. reflexivity.
Qed.

Lemma drop_ws_head (c : ascii) (l : list ascii) :
  is_ws c = false -> drop_ws (c :: l) = c :: l.
Proof. intros H. simpl. rewrite H. reflexivity. Qed.

Lemma trim_no_ws (l : list ascii) :
  Forall (fun c => is_ws c = false) l -> trim l = l.
Proof.
  intros H. unfold trim.
  assert (Hd : forall k, Forall (fun c => is_ws c = false) k -> drop_ws k = k).
  { intros k Hk. destruct Hk as [|c k Hc _]; [reflexivity|].
    apply drop_ws_head, Hc. }
  rewrite (Hd l H). rewrite Hd; [apply rev_involutive|].
  apply Forall_rev, H.
Qed.

Lemma digits_value_nonneg (ds : list N) : 0 <= digits_value 10 ds.
Proof.
  unfold digits_value.
  assert (H : forall a, 0 <= a ->
            0 <= fold_left (fun a d => a * Z.of_N 10 + Z.of_N d) ds a).
  { induction ds as [|d ds IH]; intros a Ha; simpl; [exact Ha|].
    apply IH. lia. }
  apply H. lia.
Qed.

(** [Number] of a string of decimal digits. *)
Lemma Number_digits_string (ds : list N) :
  ds <> [] ->
  Forall (fun d => (d < 10)%N) ds ->
  Number (digits_string ds) = of_mv false (inject_Z (digits_value 10 ds)).
Proof.
  intros Hne Hds. unfold Number, StringToNumber, digits_string.
  rewrite list_ascii_of_string_of_list_ascii.
  rewrite trim_no_ws
    by (apply Forall_map; eapply Forall_impl; [exact Hds|];
        intros d Hd; apply digit_char_not_ws, Hd).
  destruct ds as [|d ds]; [contradiction|].
  inversion Hds as [|? ? Hd Hrest]; subst.
  assert (Hsign : (code (digit_char d) =? 45)%N = false /\
                  (code (digit_char d) =? 43)%N = false).
  { rewrite (code_digit_char d Hd).
    split; apply N.eqb_neq; lia. }
  destruct Hsign as [Hminus Hplus].
  assert (Hradix :
    match map digit_char ds with
    | p :: t' =>
        if (code (digit_char d) =? 48)%N then
          if ((code p =? 120) || (code p =? 88))%N then Some (16%N, t')
          else if ((code p =? 111) || (code p =? 79))%N then Some (8%N, t')
          else if ((code p =? 98) || (code p =? 66))%N then Some (2%N, t')
          else None
        else None
    | [] => None
    end = None).
  { destruct ds as [|p ds]; [reflexivity|]. simpl.
    inversion Hrest as [|? ? Hp _]; subst.
    rewrite (code_digit_char p Hp).
    destruct (code (digit_char d) =? 48)%N; [|reflexivity].
    repeat match goal with
    | |- context [(48 + p =? ?b)%N] =>
        destruct (N.eqb_spec (48 + p) b); [lia|]
    end. reflexivity. }
  cbn [map]. cbn [map] in Hradix. rewrite Hradix, Hminus, Hplus.
  unfold str_decimal.
  destruct (decide (digit_char d :: map digit_char ds = Infinity_lit)) as [E|_].
  { exfalso. injection E as E _. apply (f_equal code) in E.
    rewrite (code_digit_char d Hd) in E. vm_compute in E.
    destruct d; [discriminate E|]. 
    assert (H73 : (48 + N.pos p = 73)%N) by exact E. lia. }
  unfold unsigned_decimal.
  change (digit_char d :: map digit_char ds) with (map digit_char (d :: ds)).
  rewrite (span_digits_digit_chars (d :: ds) Hds). simpl.
  rewrite app_nil_r. unfold Qmult. simpl.
  rewrite Z.mul_1_r. reflexivity.
Qed.

(** A string of decimal digits whose value is below [2^53] converts to
    exactly that integer: as a filter it equals that integer and no
    other, it is not [NaN], and it is falsy only when the value is
    zero. Leading zeros do not matter. *)
Lemma Number_of_decimal_digits (ds : list N) (z : Z) :
  ds <> [] ->
  Forall (fun d => (d < 10)%N) ds ->
  digits_value 10 ds < 2 ^ 53 ->
  eq_int (Number (digits_string ds)) z = (digits_value 10 ds =? z)%Z /\
  isNaN (Number (digits_string ds)) = false /\
  truthy_num (Number (digits_string ds)) = negb (digits_value 10 ds =? 0)%Z.
Proof.
  intros Hne Hds Hlt. rewrite (Number_digits_string ds Hne Hds).
  destruct (round64_int (digits_value 10 ds)) as (q & Hq & Heq);
    [split; [apply digits_value_nonneg | exact Hlt]|].
  unfold of_mv. rewrite Hq. unfold eq_int, truthy_num. simpl.
  split; [|split; [reflexivity|]].
  - destruct (Z.eqb_spec (digits_value 10 ds) z) as [E|E].
    + apply Qeq_bool_iff. rewrite Heq, E. reflexivity.
    + destruct (Qeq_bool q (inject_Z z)) eqn:Hb; [|reflexivity].
      apply Qeq_bool_iff in Hb. rewrite Heq in Hb.
      destruct (E (proj1 (inject_Z_injective _ _) Hb)).
  - f_equal. destruct (Z.eqb_spec (digits_value 10 ds) 0) as [E|E].
    + apply Qeq_bool_iff. rewrite Heq, E. reflexivity.
    + destruct (Qeq_bool q 0) eqn:Hb; [|reflexivity].
      apply Qeq_bool_iff in Hb. rewrite Heq in Hb.
      destruct (E (proj1 (inject_Z_injective _ 0) Hb)).
Qed.

Lemma drop_ws_blank (l : list ascii) :
  Forall (fun c => is_ws c = true) l -> drop_ws l = [].
Proof.
  induction 1 as [|c l Hc _ IH]; simpl; [reflexivity|]. rewrite Hc. exact IH.
Qed.

Lemma drop_ws_snoc (l : list ascii) (c : ascii) :
  is_ws c = false -> exists k, drop_ws (l ++ [c]) = (k ++ [c])%list.
Proof.
  intros Hc. induction l as [|a l [k IH]]; simpl.
  - rewrite Hc. exists []. reflexivity.
  - destruct (is_ws a); [exists k; exact IH|].
    exists (a :: l). reflexivity.
Qed.

Lemma trim_first (c : ascii) (t : list ascii) :
  is_ws c = false -> exists t', trim (c :: t) = c :: t'.
Proof.
  intros Hc. unfold trim. rewrite (drop_ws_head c t Hc). simpl.
  destruct (drop_ws_snoc (rev t) c Hc) as [k ->].
  rewrite rev_app_distr. simpl. eexists. reflexivity.
Qed.

Lemma trim_drop_ws (l : list ascii) : trim l = trim (drop_ws l).
Proof.
  unfold trim. f_equal. f_equal. f_equal.
  induction l as [|c l IH]; simpl; [reflexivity|].
  destruct (is_ws c) eqn:Hc; [exact IH|]. simpl. rewrite Hc. reflexivity.
Qed.

(** What [Number] makes of a string that holds no number. A string of
    white space only (the empty string too) is [+0]. A string whose
    first character after leading white space is neither a digit, a
    sign, a dot nor the [I] of [Infinity] is [NaN]. *)
Lemma Number_of_blank_or_text (s : string) :
  (Forall (fun c => is_ws c = true) (list_ascii_of_string s) ->
   Number s = Fin false 0%Q) /\
  (forall c t,
     drop_ws (list_ascii_of_string s) = c :: t ->
     digit 10 c = None ->
     (code c =? 43)%N = false -> (code c =? 45)%N = false ->
     (code c =? 46)%N = false -> (code c =? 73)%N = false ->
     Number s = NaN).
Proof.
  split.
  - intros H. unfold Number, StringToNumber, trim.
    rewrite (drop_ws_blank _ H). reflexivity.
  - intros c t Hd Hdig Hplus Hminus Hdot HI.
    assert (Hc : is_ws c = false).
    { destruct (list_ascii_of_string s) as [|a l]; [discriminate Hd|].
      clear -Hd. induction (a :: l) as [|b k IH]; [discriminate Hd|].
      simpl in Hd. destruct (is_ws b) eqn:Hb; [exact (IH Hd)|].
      injection Hd as -> _. exact Hb. }
    unfold Number, StringToNumber.
    rewrite trim_drop_ws, Hd.
    destruct (trim_first c t Hc) as [t' ->].
    assert (H48 : (code c =? 48)%N = false).
    { destruct (N.eqb_spec (code c) 48) as [E|]; [|reflexivity].
      unfold digit in Hdig. rewrite E in Hdig. discriminate Hdig. }
    rewrite H48, Hminus, Hplus.
    replace (match t' with _ :: _ => None | [] => None end)
      with (@None (N * list ascii)) by (destruct t'; reflexivity).
    unfold str_decimal.
    destruct (decide (c :: t' = Infinity_lit)) as [E|_].
    { injection E as E _. rewrite E in HI. discriminate HI. }
    unfold unsigned_decimal. simpl. rewrite Hdig, Hdot. reflexivity.
Qed.

Example digits_string_042 : digits_string [0; 4; 2]%N = "042".
Proof. reflexivity. Qed.

End JS.

(** ** The two-factor re-authentication dialog
    ([sign/[token]/document-action-auth-2fa.tsx]) *)

Module TwoFA.

(** The value handed to the caller's callback:
    [{ type: DocumentAuth['2FA'], token }]. *)
Inductive TRecipientActionAuth : Type :=
| Auth2FA (token : string).

(** [T2FAAuthFormSchema], the form's values. *)
Record T2FAAuthFormSchema : Type := { token : string }.

Definition too_small_message : string :=
  "Token must at least 4 characters long".
Definition too_big_message : string :=
  "Token must be at most 10 characters long".

(** [Z2FAAuthFormSchema], read as its [safeParse]: the [min] check raises
    an issue when [length < 4], the [max] check when [length > 10]; the
    values are accepted when no check raised an issue. *)
Definition Z2FAAuthFormSchema (v : T2FAAuthFormSchema)
  : list string + T2FAAuthFormSchema :=
  let n := String.length (token v) in
  let issues :=
    ((if (n <? 4)%nat then [too_small_message] else []) ++
     (if (10 <? n)%nat then [too_big_message] else []))%list in
  match issues with
  | [] => inr v
  | _ :: _ => inl issues
  end.

Definition accepts (v : T2FAAuthFormSchema) : bool :=
  match Z2FAAuthFormSchema v with
  | inr _ => true
  | inl _ => false
  end.

(** The structured error of [AppError.parseError]; the dialog reads its
    [code] only. *)
Record AppError : Type := { code : string }.

(** What the component does to the world outside its own state, in the
    order it does it. *)
Inductive Call : Type :=
| SetIsCurrentlyAuthenticating (value : bool)
| OnReauthFormSubmit (values : TRecipientActionAuth)
| OnOpenChange (value : bool)
| SetFormErrorCode (value : option string).

(** [String.prototype.toLowerCase] on code units below 256. *)
Definition lower_char (c : ascii) : ascii :=
  let n := N_of_ascii c in
  if ((65 <=? n) && (n <=? 90) ||
      (192 <=? n) && (n <=? 222) && negb (n =? 215))%N
  then ascii_of_N (n + 32) else c.

Fixpoint toLowerCase (s : string) : string :=
  match s with
  | EmptyString => EmptyString
  | String c s' => String (lower_char c) (toLowerCase s')
  end.

Inductive ActionTarget : Type := FIELD | DOCUMENT.

Definition target_name (t : ActionTarget) : string :=
  match t with
  | FIELD => "FIELD"
  | DOCUMENT => "DOCUMENT"
  end.

Record Alert : Type := { alert_title : string; alert_description : string }.

(** What the component renders: the notice shown to a user without 2FA,
    or the token form. *)
Inductive View : Type :=
| Setup2FA (description : string)
| TokenForm (disabled : bool) (input : string) (messages : list string)
            (alert : option Alert) (loading : bool).

Definition unauthorized_alert : Alert :=
  {| alert_title := "Unauthorized";
     alert_description :=
       "We were unable to verify your details. Please try again or contact support" |}.

(** Every piece of text a view puts on the screen. *)
Definition shown (v : View) : list string :=
  match v with
  | Setup2FA d => [d; "Close"; "Setup 2FA"]
  | TokenForm _ input messages alert _ =>
      (["2FA token"; "Token"; input] ++ messages ++
       match alert with
       | Some a => [alert_title a; alert_description a]
       | None => []
       end ++ ["Cancel"; "Sign"])%list
  end.

Section Dialog.

(** The caller of the dialog: its state, the values its callbacks may
    throw, and the two callbacks [onReauthFormSubmit] and
    [onOpenChange], each of which returns or resolves ([None]) or throws
    ([Some err]). [parseError] is [AppError.parseError] of
    [@documenso/lib/errors/app-error]. *)
Variable Caller : Type.
Variable Err : Type.
Variable onReauthFormSubmit :
  TRecipientActionAuth -> Caller -> option Err * Caller.
Variable onOpenChange : bool -> Caller -> option Err * Caller.
Variable parseError : Err -> AppError.

(** The props and the context the component reads. *)
Record Props : Type := {
  actionTarget : option ActionTarget;
  actionVerb : option string;
  open : bool;
  recipient_role : string;
  user_twoFactorEnabled : option bool
}.

(** The state the component works on: the authentication flag of the
    context, its own error code, the form (value and messages), the
    caller's state, and the calls made so far. *)
Record World : Type := {
  isCurrentlyAuthenticating : bool;
  formErrorCode : option string;
  form_token : string;
  form_messages : list string;
  caller : Caller;
  calls : list Call
}.

Definition setIsCurrentlyAuthenticating (b : bool) (w : World) : World :=
  {| isCurrentlyAuthenticating := b;
     formErrorCode := formErrorCode w;
     form_token := form_token w;
     form_messages := form_messages w;
     caller := caller w;
     calls := (calls w ++ [SetIsCurrentlyAuthenticating b])%list |}.

Definition setFormErrorCode (c : option string) (w : World) : World :=
  {| isCurrentlyAuthenticating := isCurrentlyAuthenticating w;
     formErrorCode := c;
     form_token := form_token w;
     form_messages := form_messages w;
     caller := caller w;
     calls := (calls w ++ [SetFormErrorCode c])%list |}.

Definition call_onOpenChange (b : bool) (w : World) : option Err * World :=
  let '(r, c) := onOpenChange b (caller w) in
  (r, {| isCurrentlyAuthenticating := isCurrentlyAuthenticating w;
         formErrorCode := formErrorCode w;
         form_token := form_token w;
         form_messages := form_messages w;
         caller := c;
         calls := (calls w ++ [OnOpenChange b])%list |}).

Definition call_onReauthFormSubmit (a : TRecipientActionAuth) (w : World)
  : option Err * World :=
  let '(r, c) := onReauthFormSubmit a (caller w) in
  (r, {| isCurrentlyAuthenticating := isCurrentlyAuthenticating w;
         formErrorCode := formErrorCode w;
         form_token := form_token w;
         form_messages := form_messages w;
         caller := c;
         calls := (calls w ++ [OnReauthFormSubmit a])%list |}).

(** The [catch] block of [onFormSubmit]. *)
Definition onFormSubmit_catch (err : Err) (w : World) : World :=
  let w' := setIsCurrentlyAuthenticating false w in
  let error := parseError err in
  setFormErrorCode (Some (code error)) w'.

(** [onFormSubmit]: the [try] block runs the awaited callback and then
    [onOpenChange(false)]; a throw of either one is caught by the
    [catch] block. *)
Definition onFormSubmit (v : T2FAAuthFormSchema) (w : World) : World :=
  let w1 := setIsCurrentlyAuthenticating true w in
  match call_onReauthFormSubmit (Auth2FA (token v)) w1 with
  | (None, w2) =>
      let w3 := setIsCurrentlyAuthenticating false w2 in
      match call_onOpenChange false w3 with
      | (None, w4) => w4
      | (Some err, w4) => onFormSubmit_catch err w4
      end
  | (Some err, w2) => onFormSubmit_catch err w2
  end.

(** Whether the callback resolves on these values in this world. *)
Definition callback_succeeds (v : T2FAAuthFormSchema) (w : World) : bool :=
  match fst (onReauthFormSubmit (Auth2FA (token v)) (caller w)) with
  | None => true
  | Some _ => false
  end.

(** Whether the callback resolves and [onOpenChange(false)], called
    next, throws. *)
Definition closing_throws (v : T2FAAuthFormSchema) (w : World) : bool :=
  match onReauthFormSubmit (Auth2FA (token v)) (caller w) with
  | (None, c) =>
      match fst (onOpenChange false c) with
      | Some _ => true
      | None => false
      end
  | (Some _, _) => false
  end.

Definition set_form (t : string) (ms : list string) (w : World) : World :=
  {| isCurrentlyAuthenticating := isCurrentlyAuthenticating w;
     formErrorCode := formErrorCode w;
     form_token := t;
     form_messages := ms;
     caller := caller w;
     calls := calls w |}.

(** [form.handleSubmit(onFormSubmit)] with the [zodResolver] of the
    schema: the values are validated first; the handler runs on the
    parsed values only when validation raised no issue, otherwise the
    issues become the field's messages. *)
Definition handleSubmit (onValid : T2FAAuthFormSchema -> World -> World)
    (w : World) : World :=
  match Z2FAAuthFormSchema {| token := form_token w |} with
  | inr v => onValid v (set_form (form_token w) [] w)
  | inl issues => set_form (form_token w) issues w
  end.

Definition submit (w : World) : World := handleSubmit onFormSubmit w.

(** The effect on [open]: the form is reset and the error code cleared. *)
Definition on_open_effect (w : World) : World :=
  setFormErrorCode None (set_form "" [] w).

(** [DocumentActionAuth2FA]: what is rendered from the props and state. *)
Definition DocumentActionAuth2FA (p : Props) (w : World) : View :=
  let target := default FIELD (actionTarget p) in
  let verb := default "sign" (actionVerb p) in
  if negb (default false (user_twoFactorEnabled p)) then
    Setup2FA
      (if String.eqb (recipient_role p) "VIEWER" &&
          match target with DOCUMENT => true | FIELD => false end
       then "You need to setup 2FA to mark this document as viewed."
       else "You need to setup 2FA to " ++ toLowerCase verb ++ " this " ++
            toLowerCase (target_name target) ++ ".")
  else
    TokenForm (isCurrentlyAuthenticating w) (form_token w) (form_messages w)
      (if JS.truthy_opt (formErrorCode w) then Some unauthorized_alert
       else None)
      (isCurrentlyAuthenticating w).

(** *** Properties of the dialog *)

Lemma accepts_iff (v : T2FAAuthFormSchema) :
  accepts v = true <-> (4 <= String.length (token v) <= 10)%nat.
Proof.
  unfold accepts, Z2FAAuthFormSchema.
  destruct (Nat.ltb_spec (String.length (token v)) 4);
    destruct (Nat.ltb_spec 10 (String.length (token v)));
    simpl; split; intros; try discriminate; try reflexivity; lia.
Qed.

Lemma Z2FAAuthFormSchema_inr (v v' : T2FAAuthFormSchema) :
  Z2FAAuthFormSchema v = inr v' -> v' = v /\ accepts v = true.
Proof.
  unfold accepts. intros H. rewrite H. split; [|reflexivity].
  unfold Z2FAAuthFormSchema in H.
  destruct (_ ++ _)%list; [congruence | discriminate].
Qed.

Lemma Z2FAAuthFormSchema_inl (v : T2FAAuthFormSchema) (issues : list string) :
  Z2FAAuthFormSchema v = inl issues -> issues <> [] /\ accepts v = false.
Proof.
  unfold accepts. intros H. rewrite H. split; [|reflexivity].
  unfold Z2FAAuthFormSchema in H.
  destruct (_ ++ _)%list; [discriminate | congruence].
Qed.

(** The calls of one run of [onFormSubmit], by the callbacks' outcomes. *)
Lemma onFormSubmit_resolved (v : T2FAAuthFormSchema) (w : World)
    (c c' : Caller) :
  onReauthFormSubmit (Auth2FA (token v)) (caller w) = (None, c) ->
  onOpenChange false c = (None, c') ->
  onFormSubmit v w =
    {| isCurrentlyAuthenticating := false;
       formErrorCode := formErrorCode w;
       form_token := form_token w;
       form_messages := form_messages w;
       caller := c';
       calls := (calls w ++ [SetIsCurrentlyAuthenticating true;
                             OnReauthFormSubmit (Auth2FA (token v));
                             SetIsCurrentlyAuthenticating false;
                             OnOpenChange false])%list |}.
Proof.
  intros H Hc. unfold onFormSubmit, call_onReauthFormSubmit. simpl. rewrite H.
  unfold call_onOpenChange, setIsCurrentlyAuthenticating. simpl. rewrite Hc.
  rewrite <- !app_assoc. reflexivity.
Qed.

Lemma onFormSubmit_close_thrown (v : T2FAAuthFormSchema) (w : World)
    (c c' : Caller) (err : Err) :
  onReauthFormSubmit (Auth2FA (token v)) (caller w) = (None, c) ->
  onOpenChange false c = (Some err, c') ->
  onFormSubmit v w =
    {| isCurrentlyAuthenticating := false;
       formErrorCode := Some (code (parseError err));
       form_token := form_token w;
       form_messages := form_messages w;
       caller := c';
       calls := (calls w ++ [SetIsCurrentlyAuthenticating true;
                             OnReauthFormSubmit (Auth2FA (token v));
                             SetIsCurrentlyAuthenticating false;
                             OnOpenChange false;
                             SetIsCurrentlyAuthenticating false;
                             SetFormErrorCode (Some (code (parseError err)))])%list |}.
Proof.
  intros H Hc. unfold onFormSubmit, call_onReauthFormSubmit. simpl. rewrite H.
  unfold call_onOpenChange, setIsCurrentlyAuthenticating. simpl. rewrite Hc.
  unfold onFormSubmit_catch, setFormErrorCode, setIsCurrentlyAuthenticating.
  simpl. rewrite <- !app_assoc. reflexivity.
Qed.

Lemma onFormSubmit_thrown (v : T2FAAuthFormSchema) (w : World) (c : Caller)
    (err : Err) :
  onReauthFormSubmit (Auth2FA (token v)) (caller w) = (Some err, c) ->
  onFormSubmit v w =
    {| isCurrentlyAuthenticating := false;
       formErrorCode := Some (code (parseError err));
       form_token := form_token w;
       form_messages := form_messages w;
       caller := c;
       calls := (calls w ++ [SetIsCurrentlyAuthenticating true;
                             OnReauthFormSubmit (Auth2FA (token v));
                             SetIsCurrentlyAuthenticating false;
                             SetFormErrorCode (Some (code (parseError err)))])%list |}.
Proof.
  intros H. unfold onFormSubmit, call_onReauthFormSubmit. simpl. rewrite H.
  unfold onFormSubmit_catch, setFormErrorCode, setIsCurrentlyAuthenticating.
  simpl. rewrite <- !app_assoc. reflexivity.
Qed.

(** C6. The schema accepts a token exactly when its length is between 4
    and 10; on a token outside that bound, submitting the form leaves the
    issue as the field's message and makes no call at all: the caller's
    [onReauthFormSubmit] is not invoked and the caller's state is as it
    was. *)
Theorem token_bound_checked_before_submission (w : World) :
  (forall t, accepts {| token := t |} = true <->
             (4 <= String.length t <= 10)%nat) /\
  (~ (4 <= String.length (form_token w) <= 10)%nat ->
   accepts {| token := form_token w |} = false /\
   form_messages (submit w) <> [] /\
   calls (submit w) = calls w /\
   caller (submit w) = caller w).
Proof.
  split; [intros t; apply (accepts_iff {| token := t |})|].
  intros Hout.
  assert (Hrej : accepts {| token := form_token w |} = false).
  { destruct (accepts _) eqn:E; [|reflexivity].
    apply accepts_iff in E. simpl in E. contradiction. }
  unfold submit, handleSubmit.
  destruct (Z2FAAuthFormSchema {| token := form_token w |}) as [issues|v'] eqn:E.
  - apply Z2FAAuthFormSchema_inl in E as [Hne _]. simpl.
    repeat split; try assumption; try reflexivity.
  - apply Z2FAAuthFormSchema_inr in E as [_ E]. congruence.
Qed.

Lemma submit_in_bound (w : World) :
  (4 <= String.length (form_token w) <= 10)%nat ->
  submit w =
    onFormSubmit {| token := form_token w |} (set_form (form_token w) [] w).
Proof.
  intros Hin. unfold submit, handleSubmit.
  destruct (Z2FAAuthFormSchema {| token := form_token w |}) as [issues|v'] eqn:E.
  - apply Z2FAAuthFormSchema_inl in E as [_ E].
    apply (accepts_iff {| token := form_token w |}) in Hin. congruence.
  - apply Z2FAAuthFormSchema_inr in E as [-> _]. reflexivity.
Qed.

(** C10, as the code has it. After a run of [onFormSubmit] the
    authenticating flag is false whatever the callback and
    [onOpenChange] did. [onOpenChange(false)] is called exactly when the
    callback resolved. [setFormErrorCode] is called exactly when the
    callback threw or [onOpenChange(false)] threw, both being inside the
    [try] block; the stored code is then the code of the parsed error,
    and otherwise it is as it was. The calls of the run are given in
    full, and the caller's state is what the callback, and then
    [onOpenChange] when it was called, left. *)
Theorem onFormSubmit_resets_flag (v : T2FAAuthFormSchema) (w : World) :
  isCurrentlyAuthenticating (onFormSubmit v w) = false /\
  (exists made : list Call,
     calls (onFormSubmit v w) = (calls w ++ made)%list /\
     made =
       ([SetIsCurrentlyAuthenticating true;
         OnReauthFormSubmit (Auth2FA (token v));
         SetIsCurrentlyAuthenticating false] ++
        match onReauthFormSubmit (Auth2FA (token v)) (caller w) with
        | (Some err, _) => [SetFormErrorCode (Some (code (parseError err)))]
        | (None, c) =>
            match fst (onOpenChange false c) with
            | Some err =>
                [OnOpenChange false;
                 SetIsCurrentlyAuthenticating false;
                 SetFormErrorCode (Some (code (parseError err)))]
            | None => [OnOpenChange false]
            end
        end)%list /\
     (In (OnOpenChange false) made <-> callback_succeeds v w = true) /\
     (forall b, In (OnOpenChange b) made -> b = false) /\
     ((exists c, In (SetFormErrorCode c) made) <->
      callback_succeeds v w = false \/ closing_throws v w = true)) /\
  formErrorCode (onFormSubmit v w) =
    match onReauthFormSubmit (Auth2FA (token v)) (caller w) with
    | (Some err, _) => Some (code (parseError err))
    | (None, c) =>
        match fst (onOpenChange false c) with
        | Some err => Some (code (parseError err))
        | None => formErrorCode w
        end
    end /\
  caller (onFormSubmit v w) =
    match onReauthFormSubmit (Auth2FA (token v)) (caller w) with
    | (Some _, c) => c
    | (None, c) => snd (onOpenChange false c)
    end.
Proof.
  unfold callback_succeeds, closing_throws.
  destruct (onReauthFormSubmit (Auth2FA (token v)) (caller w))
    as [[err|] c] eqn:E; simpl.
  - rewrite (onFormSubmit_thrown _ _ _ _ E). simpl.
    split; [reflexivity|]. split; [|split; reflexivity].
    eexists. split; [reflexivity|]. split; [reflexivity|]. split; [|split].
    + split; [|discriminate]. simpl. intros H.
      repeat (destruct H as [H|H]; [discriminate|]). destruct H.
    + intros b H. simpl in H.
      repeat (destruct H as [H|H]; [discriminate|]). destruct H.
    + split; [left; reflexivity|]. intros _. eexists. simpl.
      do 3 right. left. reflexivity.
  - destruct (onOpenChange false c) as [[err|] c'] eqn:Ec; simpl.
    + rewrite (onFormSubmit_close_thrown _ _ _ _ _ E Ec). simpl.
      split; [reflexivity|]. split; [|split; reflexivity].
      eexists. split; [reflexivity|]. split; [reflexivity|]. split; [|split].
      * split; [reflexivity|]. intros _. simpl. do 3 right. left. reflexivity.
      * intros b H. simpl in H.
        repeat (destruct H as [H|H]; [try discriminate; congruence|]).
        destruct H.
      * split; [right; reflexivity|]. intros _. eexists. simpl.
        do 5 right. left. reflexivity.
    + rewrite (onFormSubmit_resolved _ _ _ _ E Ec). simpl.
      split; [reflexivity|]. split; [|split; reflexivity].
      eexists. split; [reflexivity|]. split; [reflexivity|]. split; [|split].
      * split; [reflexivity|]. intros _. simpl. do 3 right. left. reflexivity.
      * intros b H. simpl in H.
        repeat (destruct H as [H|H]; [try discriminate; congruence|]).
        destruct H.
      * split; [|intros [H|H]; discriminate]. intros [c0 H]. simpl in H.
        repeat (destruct H as [H|H]; [discriminate|]). destruct H.
Qed.

(** C7, as the code has it. When the callback throws [err], the error is
    parsed and its code is stored in [formErrorCode]; the token form then
    shows the fixed "Unauthorized" alert exactly when that code is not
    empty, and nothing else of the view depends on the error. *)
Theorem thrown_error_code_stored (p : Props) (v : T2FAAuthFormSchema)
    (w : World) (err : Err) :
  fst (onReauthFormSubmit (Auth2FA (token v)) (caller w)) = Some err ->
  formErrorCode (onFormSubmit v w) = Some (code (parseError err)) /\
  (user_twoFactorEnabled p = Some true ->
   DocumentActionAuth2FA p (onFormSubmit v w) =
     TokenForm false (form_token w) (form_messages w)
       (if JS.truthy (code (parseError err)) then Some unauthorized_alert
        else None)
       false).
Proof.
  destruct (onReauthFormSubmit (Auth2FA (token v)) (caller w))
    as [r c] eqn:E; simpl.
  intros ->. rewrite (onFormSubmit_thrown _ _ _ _ E).
  split; [reflexivity|]. intros H2fa.
  unfold DocumentActionAuth2FA. rewrite H2fa. reflexivity.
Qed.

(** *** Further properties of the dialog *)

(** X10. Submitting a token the schema refuses changes nothing but the
    field's messages, and leaves exactly one message there: the "at
    least 4" message for a token shorter than 4 characters, the "at most
    10" message for one longer than 10. *)
Theorem refused_token_gets_one_message (w : World) :
  ((String.length (form_token w) < 4)%nat ->
   submit w = set_form (form_token w) [too_small_message] w) /\
  ((10 < String.length (form_token w))%nat ->
   submit w = set_form (form_token w) [too_big_message] w).
Proof.
  unfold submit, handleSubmit, Z2FAAuthFormSchema. simpl.
  destruct (Nat.ltb_spec (String.length (form_token w)) 4);
    destruct (Nat.ltb_spec 10 (String.length (form_token w))); simpl;
    split; intros; try reflexivity; lia.
Qed.

(** X11. Submitting a token of 4 to 10 characters invokes the caller's
    callback once, with exactly the token typed, between setting the
    authenticating flag and clearing it. What follows is one of three:
    [onOpenChange(false)] alone; the error code of a callback that
    threw; or [onOpenChange(false)], the flag cleared again and the
    error code of an [onOpenChange] that threw. The field's messages
    are cleared and the token stays in the field. *)
Theorem valid_token_reaches_callback_once (w : World) :
  (4 <= String.length (form_token w) <= 10)%nat ->
  exists rest,
    calls (submit w) =
      (calls w ++ [SetIsCurrentlyAuthenticating true;
                   OnReauthFormSubmit (Auth2FA (form_token w));
                   SetIsCurrentlyAuthenticating false] ++ rest)%list /\
    (rest = [OnOpenChange false] \/
     (exists c, rest = [SetFormErrorCode (Some c)]) \/
     (exists c, rest = [OnOpenChange false;
                        SetIsCurrentlyAuthenticating false;
                        SetFormErrorCode (Some c)])) /\
    form_messages (submit w) = [] /\
    form_token (submit w) = form_token w.
Proof.
  intros Hin. rewrite (submit_in_bound w Hin).
  destruct (onReauthFormSubmit (Auth2FA (form_token w)) (caller w))
    as [[err|] c] eqn:E.
  - rewrite (onFormSubmit_thrown {| token := form_token w |}
               (set_form (form_token w) [] w) c err E). simpl.
    eexists. split; [reflexivity|].
    split; [right; left; eexists; reflexivity|]. split; reflexivity.
  - destruct (onOpenChange false c) as [[err|] c'] eqn:Ec.
    + rewrite (onFormSubmit_close_thrown {| token := form_token w |}
                 (set_form (form_token w) [] w) c c' err E Ec). simpl.
      eexists. split; [reflexivity|].
      split; [right; right; eexists; reflexivity|]. split; reflexivity.
    + rewrite (onFormSubmit_resolved {| token := form_token w |}
                 (set_form (form_token w) [] w) c c' E Ec). simpl.
      eexists. split; [reflexivity|].
      split; [left; reflexivity|]. split; reflexivity.
Qed.

(** X12. Whatever a submission did, the effect that runs when the dialog
    is opened or closed leaves a clean form: for a user with 2FA the
    view then has an empty token field, no message, no alert, and is
    enabled. The caller's state is not touched by the effect. *)
Theorem open_effect_after_submission_shows_clean_form (p : Props)
    (v : T2FAAuthFormSchema) (w : World) :
  user_twoFactorEnabled p = Some true ->
  DocumentActionAuth2FA p (on_open_effect (onFormSubmit v w)) =
    TokenForm false "" [] None false /\
  caller (on_open_effect (onFormSubmit v w)) = caller (onFormSubmit v w).
Proof.
  intros H2fa. unfold DocumentActionAuth2FA. rewrite H2fa. simpl.
  split; [|reflexivity].
  destruct (onReauthFormSubmit (Auth2FA (token v)) (caller w))
    as [[err|] c] eqn:E.
  - rewrite (onFormSubmit_thrown _ _ _ _ E). reflexivity.
  - destruct (onOpenChange false c) as [[err|] c'] eqn:Ec.
    + rewrite (onFormSubmit_close_thrown _ _ _ _ _ E Ec). reflexivity.
    + rewrite (onFormSubmit_resolved _ _ _ _ E Ec). reflexivity.
Qed.

(** X13. For a user who has not enabled 2FA (or no user at all) the
    component renders the setup notice and never the token form,
    whatever its state. The notice names the action in lower case,
    "sign" and "field" by default, except that a viewer acting on the
    document is told to set 2FA up to mark the document as viewed. *)
Theorem setup_notice_without_2fa (p : Props) :
  user_twoFactorEnabled p <> Some true ->
  exists notice,
    (forall w : World, DocumentActionAuth2FA p w = Setup2FA notice) /\
    (recipient_role p = "VIEWER" -> actionTarget p = Some DOCUMENT ->
     notice = "You need to setup 2FA to mark this document as viewed.") /\
    (recipient_role p <> "VIEWER" \/ actionTarget p <> Some DOCUMENT ->
     notice = "You need to setup 2FA to " ++
              toLowerCase (default "sign" (actionVerb p)) ++ " this " ++
              match actionTarget p with
              | Some DOCUMENT => "document"
              | _ => "field"
              end ++ ".").
Proof.
  intros H2fa.
  assert (Hoff : negb (default false (user_twoFactorEnabled p)) = true).
  { destruct (user_twoFactorEnabled p) as [[|]|]; [contradiction| |];
      reflexivity. }
  unfold DocumentActionAuth2FA. rewrite Hoff.
  eexists. split; [intros w; reflexivity|]. split.
  - intros -> ->. reflexivity.
  - intros Hother.
    destruct (String.eqb_spec (recipient_role p) "VIEWER") as [Hv|Hv];
      destruct (actionTarget p) as [[|]|]; simpl; try reflexivity.
    destruct Hother as [Hn|Hn]; [contradiction | congruence].
Qed.

End Dialog.

Arguments isCurrentlyAuthenticating {Caller}.
Arguments formErrorCode {Caller}.
Arguments form_token {Caller}.
Arguments form_messages {Caller}.
Arguments caller {Caller}.
Arguments calls {Caller}.
Arguments set_form {Caller}.
Arguments DocumentActionAuth2FA {Caller}.

(** *** A concrete caller

    The caller counts the successful re-authentications; its callback
    resolves on one token and throws an error code on any other. *)

Definition sample_onReauthFormSubmit (a : TRecipientActionAuth) (n : nat)
  : option string * nat :=
  match a with
  | Auth2FA t =>
      if String.eqb t "123456" then (None, S n)
      else (Some "TWO_FACTOR_AUTH_FAILED", n)
  end.

Definition sample_onOpenChange (b : bool) (n : nat) : option string * nat :=
  (None, n).

(** An [onOpenChange] whose dialog is gone: it throws. *)
Definition sample_onOpenChange_unmounted (b : bool) (n : nat)
  : option string * nat :=
  (Some "DIALOG_UNMOUNTED", n).

Definition sample_parseError (e : string) : AppError := {| code := e |}.

Definition sample_world (t : string) : World nat :=
  {| isCurrentlyAuthenticating := false;
     formErrorCode := None;
     form_token := t;
     form_messages := [];
     caller := 0%nat;
     calls := [] |}.

Definition sample_props : Props :=
  {| actionTarget := None;
     actionVerb := None;
     open := true;
     recipient_role := "SIGNER";
     user_twoFactorEnabled := Some true |}.

Definition sample_submit : World nat -> World nat :=
  submit nat string sample_onReauthFormSubmit sample_onOpenChange
    sample_parseError.

Definition sample_onFormSubmit : T2FAAuthFormSchema -> World nat -> World nat :=
  onFormSubmit nat string sample_onReauthFormSubmit sample_onOpenChange
    sample_parseError.

Example submit_short_token :
  sample_submit (sample_world "123") =
    set_form "123" [too_small_message] (sample_world "123").
Proof. reflexivity. Qed.

Example submit_good_token :
  calls (sample_submit (sample_world "123456")) =
    [SetIsCurrentlyAuthenticating true;
     OnReauthFormSubmit (Auth2FA "123456");
     SetIsCurrentlyAuthenticating false;
     OnOpenChange false].
Proof. reflexivity. Qed.

Example submit_wrong_token :
  DocumentActionAuth2FA sample_props (sample_submit (sample_world "654321")) =
    TokenForm false "654321" [] (Some unauthorized_alert) false.
Proof. reflexivity. Qed.

(** A token of three characters is outside the bound: it is refused and
    nothing is called. *)
Lemma token_bound_checked_before_submission_witness :
  ~ (4 <= String.length "123" <= 10)%nat /\
  calls (sample_submit (sample_world "123")) = [] /\
  caller (sample_submit (sample_world "123")) = 0%nat.
Proof.
  assert (Hout : ~ (4 <= String.length "123" <= 10)%nat) by (simpl; lia).
  split; [exact Hout|].
  pose proof (token_bound_checked_before_submission nat string
    sample_onReauthFormSubmit sample_onOpenChange sample_parseError
    (sample_world "123")) as [_ H].
  destruct (H Hout) as (_ & _ & Hcalls & Hcaller).
  split; [exact Hcalls | exact Hcaller].
Defined.

(** A wrong token: the callback throws, the flag is reset, the dialog
    stays open. *)
Lemma onFormSubmit_resets_flag_witness :
  isCurrentlyAuthenticating
    (sample_onFormSubmit {| token := "654321" |} (sample_world "654321")) = false /\
  formErrorCode
    (sample_onFormSubmit {| token := "654321" |} (sample_world "654321")) =
    Some "TWO_FACTOR_AUTH_FAILED".
Proof.
  destruct (onFormSubmit_resets_flag nat string sample_onReauthFormSubmit
              sample_onOpenChange sample_parseError
              {| token := "654321" |} (sample_world "654321"))
    as (Hflag & _ & Hcode & _).
  split; [exact Hflag | exact Hcode].
Defined.

(** C10 as stated fails: the callback resolves, [onOpenChange(false)]
    throws inside the [try] block, and the [catch] block stores an error
    code although the callback succeeded. *)
Lemma closing_throw_sets_error_code :
  callback_succeeds nat string sample_onReauthFormSubmit
    {| token := "123456" |} (sample_world "123456") = true /\
  formErrorCode (sample_world "123456") = None /\
  formErrorCode
    (onFormSubmit nat string sample_onReauthFormSubmit
       sample_onOpenChange_unmounted sample_parseError
       {| token := "123456" |} (sample_world "123456")) =
    Some "DIALOG_UNMOUNTED" /\
  calls
    (onFormSubmit nat string sample_onReauthFormSubmit
       sample_onOpenChange_unmounted sample_parseError
       {| token := "123456" |} (sample_world "123456")) =
    [SetIsCurrentlyAuthenticating true;
     OnReauthFormSubmit (Auth2FA "123456");
     SetIsCurrentlyAuthenticating false;
     OnOpenChange false;
     SetIsCurrentlyAuthenticating false;
     SetFormErrorCode (Some "DIALOG_UNMOUNTED")].
Proof. repeat split. Qed.

(** A wrong token: the callback throws, and the code is stored. *)
Lemma thrown_error_code_stored_witness :
  formErrorCode (sample_onFormSubmit {| token := "654321" |}
                   (sample_world "654321")) =
    Some "TWO_FACTOR_AUTH_FAILED".
Proof.
  apply (thrown_error_code_stored nat string sample_onReauthFormSubmit
           sample_onOpenChange sample_parseError sample_props
           {| token := "654321" |} (sample_world "654321")
           "TWO_FACTOR_AUTH_FAILED").
  reflexivity.
Defined.

(** C7 as stated fails: the callback throws, the code is extracted, and
    the rendered dialog shows no text that is the error code. *)
Lemma error_code_not_displayed :
  ~ (forall (p : Props) (v : T2FAAuthFormSchema) (w : World nat) (err : string),
       fst (sample_onReauthFormSubmit (Auth2FA (token v)) (caller w)) = Some err ->
       In (code (sample_parseError err))
          (shown (DocumentActionAuth2FA p (sample_onFormSubmit v w)))).
Proof.
  intros H.
  specialize (H sample_props {| token := "654321" |} (sample_world "654321")
                "TWO_FACTOR_AUTH_FAILED" eq_refl).
  vm_compute in H.
  repeat (destruct H as [H|H]; [discriminate|]). destruct H.
Qed.


(** Eleven characters are one too many. *)
Lemma refused_token_gets_one_message_witness :
  form_messages (sample_submit (sample_world "12345678901")) =
    [too_big_message].
Proof.
  destruct (refused_token_gets_one_message nat string
              sample_onReauthFormSubmit sample_onOpenChange sample_parseError
              (sample_world "12345678901")) as [_ H].
  unfold sample_submit. rewrite H; [reflexivity | simpl; lia].
Defined.

Lemma valid_token_reaches_callback_once_witness :
  exists rest,
    calls (sample_submit (sample_world "654321")) =
      ([SetIsCurrentlyAuthenticating true;
        OnReauthFormSubmit (Auth2FA "654321");
        SetIsCurrentlyAuthenticating false] ++ rest)%list.
Proof.
  destruct (valid_token_reaches_callback_once nat string
              sample_onReauthFormSubmit sample_onOpenChange sample_parseError
              (sample_world "654321")) as (rest & Hcalls & _).
  - simpl. lia.
  - exists rest. exact Hcalls.
Defined.

Lemma open_effect_after_submission_shows_clean_form_witness :
  DocumentActionAuth2FA sample_props
    (on_open_effect nat
       (sample_onFormSubmit {| token := "654321" |} (sample_world "654321"))) =
    TokenForm false "" [] None false.
Proof.
  apply (open_effect_after_submission_shows_clean_form nat string
           sample_onReauthFormSubmit sample_onOpenChange sample_parseError
           sample_props {| token := "654321" |} (sample_world "654321")).
  reflexivity.
Defined.

(** A viewer about to mark the document as viewed, without 2FA. *)
Lemma setup_notice_without_2fa_witness :
  exists notice,
    (forall w : World nat,
       DocumentActionAuth2FA
         {| actionTarget := Some DOCUMENT; actionVerb := Some "View";
            open := true; recipient_role := "VIEWER";
            user_twoFactorEnabled := Some false |} w = Setup2FA notice) /\
    notice = "You need to setup 2FA to mark this document as viewed.".
Proof.
  destruct (setup_notice_without_2fa nat
              {| actionTarget := Some DOCUMENT; actionVerb := Some "View";
                 open := true; recipient_role := "VIEWER";
                 user_twoFactorEnabled := Some false |})
    as (notice & Hall & Hviewer & _).
  - discriminate.
  - exists notice. split; [exact Hall|]. apply Hviewer; reflexivity.
Defined.
End TwoFA.

(** ** The document detail page ([documents/[id]/page.tsx]) *)

Module Page.

(** What a request for the page ends in: [redirect(url)] (which never
    returns), the rendered page, or an error thrown by a helper the page
    does not catch. *)
Inductive Result (V : Type) : Type :=
| Redirect (url : string)
| Rendered (view : V)
| Failed.

Arguments Redirect {V}.
Arguments Rendered {V}.
Arguments Failed {V}.

(** A promise's outcome: rejected, or resolved with a value. *)
Inductive Settled (A : Type) : Type :=
| Rejected
| Resolved (a : A).

Arguments Rejected {A}.
Arguments Resolved {A}.

(** [promise.catch(() => null)]. *)
Definition catch_null {A : Type} (p : Settled (option A)) : option A :=
  match p with
  | Rejected => None
  | Resolved a => a
  end.

Section DocumentPage.

(** The records of the data layer and the helpers of [@documenso/lib]
    the page calls; a helper's [Rejected] is its promise rejecting. *)
Variables User Document Recipient Field : Type.
Variable user_id : User -> Z.
Variable document_title : Document -> string.
Variable document_status : Document -> string.
Variable getRequiredServerComponentSession : Settled User.
Variable getDocumentById : JS.Num -> Z -> Settled (option Document).
Variable getRecipientsForDocument : JS.Num -> Z -> Settled (list Recipient).
Variable getFieldsForDocument : JS.Num -> Z -> Settled (list Field).

(** The rendered page: heading, status, the recipients badge (present
    when there is a recipient) and the props of [EditDocumentForm]. *)
Record View : Type := {
  heading : string;
  status : string;
  recipients_badge : option nat;
  form_document : Document;
  form_user : User;
  form_recipients : list Recipient;
  form_fields : list Field
}.

(** The guard [!documentId || Number.isNaN(documentId)]. *)
Definition invalid_id (documentId : JS.Num) : bool :=
  negb (JS.truthy_num documentId) || JS.isNaN documentId.

Definition DocumentPage (id : string) : Result View :=
  let documentId := JS.Number id in
  if invalid_id documentId then Redirect "/documents"
  else
    match getRequiredServerComponentSession with
    | Rejected => Failed
    | Resolved session =>
        match catch_null (getDocumentById documentId (user_id session)) with
        | None => Redirect "/documents"
        | Some document =>
            match getRecipientsForDocument documentId (user_id session) with
            | Rejected => Failed
            | Resolved recipients =>
                match getFieldsForDocument documentId (user_id session) with
                | Rejected => Failed
                | Resolved fields =>
                    Rendered
                      {| heading := document_title document;
                         status := document_status document;
                         recipients_badge :=
                           if (0 <? length recipients)%nat
                           then Some (length recipients) else None;
                         form_document := document;
                         form_user := session;
                         form_recipients := recipients;
                         form_fields := fields |}
                end
            end
        end
    end.

(** *** Properties of the page *)

Lemma invalid_id_iff (n : JS.Num) :
  invalid_id n = true <-> JS.truthy_num n = false \/ JS.isNaN n = true.
Proof.
  unfold invalid_id. rewrite orb_true_iff, negb_true_iff. reflexivity.
Qed.

Lemma invalid_id_redirects (id : string) :
  invalid_id (JS.Number id) = true -> DocumentPage id = Redirect "/documents".
Proof. unfold DocumentPage. intros ->. reflexivity. Qed.

(** C5. A request whose id converts to a falsy number or to [NaN] is
    redirected to [/documents]; so is a request whose document lookup,
    made for the session's user, rejects or resolves to no document. A
    redirect renders nothing. The empty string, zero and a non-numeric
    string are such ids. *)
Theorem DocumentPage_redirects (id : string) :
  (JS.truthy_num (JS.Number id) = false \/ JS.isNaN (JS.Number id) = true ->
   DocumentPage id = Redirect "/documents") /\
  (forall session : User,
     getRequiredServerComponentSession = Resolved session ->
     getDocumentById (JS.Number id) (user_id session) = Rejected \/
     getDocumentById (JS.Number id) (user_id session) = Resolved None ->
     DocumentPage id = Redirect "/documents") /\
  (forall v : View, DocumentPage id = Redirect "/documents" ->
                    DocumentPage id <> Rendered v) /\
  DocumentPage "" = Redirect "/documents" /\
  DocumentPage "0" = Redirect "/documents" /\
  DocumentPage "abc" = Redirect "/documents".
Proof.
  split; [|split; [|split]].
  - intros H. apply invalid_id_redirects, invalid_id_iff, H.
  - intros session Hs Hd. unfold DocumentPage.
    destruct (invalid_id (JS.Number id)); [reflexivity|].
    rewrite Hs. destruct Hd as [-> | ->]; reflexivity.
  - intros v -> ?. discriminate.
  - repeat split; apply invalid_id_redirects; vm_compute; reflexivity.
Qed.

(** *** Further properties of the page *)

(** X14. The page is rendered exactly when the id passes the check, the
    session resolves, the lookup for the session's user resolves to a
    document, and the recipients and the fields resolve. The view then
    shows that document's title and status, the number of recipients
    when there is one or more, and hands the document, the session's
    user, the recipients and the fields to the edit form. *)
Theorem DocumentPage_renders_iff (id : string) (v : View) :
  DocumentPage id = Rendered v <->
  invalid_id (JS.Number id) = false /\
  exists session document recipients fields,
    getRequiredServerComponentSession = Resolved session /\
    getDocumentById (JS.Number id) (user_id session) =
      Resolved (Some document) /\
    getRecipientsForDocument (JS.Number id) (user_id session) =
      Resolved recipients /\
    getFieldsForDocument (JS.Number id) (user_id session) = Resolved fields /\
    v = {| heading := document_title document;
           status := document_status document;
           recipients_badge :=
             match recipients with
             | [] => None
             | _ :: _ => Some (length recipients)
             end;
           form_document := document;
           form_user := session;
           form_recipients := recipients;
           form_fields := fields |}.
Proof.
  unfold DocumentPage. split.
  - destruct (invalid_id (JS.Number id)); [discriminate|].
    destruct getRequiredServerComponentSession as [|session]; [discriminate|].
    destruct (getDocumentById (JS.Number id) (user_id session))
      as [|[document|]] eqn:Hd; simpl; try discriminate.
    destruct (getRecipientsForDocument (JS.Number id) (user_id session))
      as [|recipients] eqn:Hr; [discriminate|].
    destruct (getFieldsForDocument (JS.Number id) (user_id session))
      as [|fields] eqn:Hf; [discriminate|].
    intros H. injection H as <-. split; [reflexivity|].
    exists session, document, recipients, fields.
    split; [reflexivity|]. split; [exact Hd|]. split; [exact Hr|].
    split; [exact Hf|]. destruct recipients; reflexivity.
  - intros (Hid & session & document & recipients & fields
            & -> & Hd & Hr & Hf & ->).
    rewrite Hid, Hd, Hr, Hf. simpl. destruct recipients; reflexivity.
Qed.

(** X15. The page redirects nowhere but to [/documents], and it fails
    only for an id that passed the check: when the session helper
    rejects, or when, the document found, the recipients or the fields
    helper rejects. A lookup that rejects never makes the page fail. *)
Theorem DocumentPage_failures (id : string) :
  (forall url, DocumentPage id = Redirect url -> url = "/documents") /\
  (DocumentPage id = Failed <->
   invalid_id (JS.Number id) = false /\
   (getRequiredServerComponentSession = Rejected \/
    exists session document,
      getRequiredServerComponentSession = Resolved session /\
      getDocumentById (JS.Number id) (user_id session) =
        Resolved (Some document) /\
      (getRecipientsForDocument (JS.Number id) (user_id session) = Rejected \/
       getFieldsForDocument (JS.Number id) (user_id session) = Rejected))).
Proof.
  unfold DocumentPage. split.
  - intros url.
    destruct (invalid_id (JS.Number id)); [intros H; congruence|].
    destruct getRequiredServerComponentSession as [|session]; [discriminate|].
    destruct (catch_null _); [|intros H; congruence].
    destruct (getRecipientsForDocument _ _); [discriminate|].
    destruct (getFieldsForDocument _ _); discriminate.
  - destruct (invalid_id (JS.Number id)).
    { split; [discriminate | intros [H _]; discriminate]. }
    destruct getRequiredServerComponentSession as [|session].
    { split; [intros _; split; [reflexivity | left; reflexivity]
             | intros _; reflexivity]. }
    destruct (getDocumentById (JS.Number id) (user_id session))
      as [|[document|]] eqn:Hd; simpl.
    + split; [discriminate|].
      intros [_ [H | (s & d & Hs & Hd' & _)]]; [discriminate|].
      injection Hs as <-. congruence.
    + destruct (getRecipientsForDocument (JS.Number id) (user_id session))
        as [|recipients] eqn:Hr.
      { split; [|intros _; reflexivity].
        intros _. split; [reflexivity|]. right.
        exists session, document. auto. }
      destruct (getFieldsForDocument (JS.Number id) (user_id session))
        as [|fields] eqn:Hf.
      { split; [|intros _; reflexivity].
        intros _. split; [reflexivity|]. right.
        exists session, document. auto. }
      split; [discriminate|].
      intros [_ [H | (s & d & Hs & _ & [H | H])]]; [discriminate| |];
        injection Hs as <-; congruence.
    + split; [discriminate|].
      intros [_ [H | (s & d & Hs & Hd' & _)]]; [discriminate|].
      injection Hs as <-. congruence.
Qed.

(** X16. Ids the check turns away whatever the session and the data
    layer hold: an id of white space only (the empty id too), and an id
    whose first character after leading white space is neither a digit,
    a sign, a dot nor the [I] of [Infinity]. *)
Theorem blank_or_text_id_redirects (id : string) :
  (Forall (fun c => JS.is_ws c = true) (list_ascii_of_string id) ->
   DocumentPage id = Redirect "/documents") /\
  (forall c t,
     JS.drop_ws (list_ascii_of_string id) = c :: t ->
     JS.digit 10 c = None ->
     (JS.code c =? 43)%N = false -> (JS.code c =? 45)%N = false ->
     (JS.code c =? 46)%N = false -> (JS.code c =? 73)%N = false ->
     DocumentPage id = Redirect "/documents").
Proof.
  split.
  - intros H. apply invalid_id_redirects. unfold invalid_id.
    destruct (JS.Number_of_blank_or_text id) as [Hb _].
    rewrite (Hb H). reflexivity.
  - intros c t Hd H1 H2 H3 H4 H5. apply invalid_id_redirects.
    unfold invalid_id.
    destruct (JS.Number_of_blank_or_text id) as [_ Ht].
    rewrite (Ht c t Hd H1 H2 H3 H4 H5). reflexivity.
Qed.

(** X17. An id of decimal digits (leading zeros allowed) whose value is
    below [2^53] is turned away by the check exactly when its value is
    zero. The number the lookups are made with equals that value and no
    other integer; when the value is not zero and the session, the
    lookup, the recipients and the fields resolve, the page is rendered
    for the document found. *)
Theorem decimal_id_looked_up_by_value (ds : list N) :
  ds <> [] ->
  Forall (fun d => (d < 10)%N) ds ->
  JS.digits_value 10 ds < 2 ^ 53 ->
  invalid_id (JS.Number (JS.digits_string ds)) =
    (JS.digits_value 10 ds =? 0)%Z /\
  (forall z, JS.eq_int (JS.Number (JS.digits_string ds)) z =
             (JS.digits_value 10 ds =? z)%Z) /\
  (JS.digits_value 10 ds = 0 ->
   DocumentPage (JS.digits_string ds) = Redirect "/documents") /\
  (forall session document recipients fields,
     JS.digits_value 10 ds <> 0 ->
     getRequiredServerComponentSession = Resolved session ->
     getDocumentById (JS.Number (JS.digits_string ds)) (user_id session) =
       Resolved (Some document) ->
     getRecipientsForDocument (JS.Number (JS.digits_string ds))
       (user_id session) = Resolved recipients ->
     getFieldsForDocument (JS.Number (JS.digits_string ds))
       (user_id session) = Resolved fields ->
     exists v, DocumentPage (JS.digits_string ds) = Rendered v /\
               form_document v = document /\ form_user v = session).
Proof.
  intros Hne Hds Hlt.
  assert (Hinv : invalid_id (JS.Number (JS.digits_string ds)) =
                 (JS.digits_value 10 ds =? 0)%Z).
  { destruct (JS.Number_of_decimal_digits ds 0 Hne Hds Hlt) as (_ & Hn & Ht).
    unfold invalid_id. rewrite Hn, Ht, negb_involutive, orb_false_r.
    reflexivity. }
  split; [exact Hinv|]. split; [|split].
  - intros z. apply (JS.Number_of_decimal_digits ds z Hne Hds Hlt).
  - intros Hz. apply invalid_id_redirects. rewrite Hinv, Hz. reflexivity.
  - intros session document recipients fields Hnz Hs Hd Hr Hf.
    unfold DocumentPage. rewrite Hinv, Hs, Hd, Hr, Hf.
    destruct (Z.eqb_spec (JS.digits_value 10 ds) 0) as [E|_]; [contradiction|].
    simpl. eexists. split; [reflexivity|]. split; reflexivity.
Qed.

End DocumentPage.

(** *** A concrete data layer: documents as (owner, title) pairs kept by
    integer id, one signed-in user. *)

Definition sample_documents : list (Z * (Z * string)) :=
  [(1, (7, "Contract.pdf")); (2, (8, "Lease.pdf"))].

Definition sample_getDocumentById (n : JS.Num) (userId : Z)
  : Settled (option (Z * string)) :=
  match List.find (fun d => JS.eq_int n (fst d) && (fst (snd d) =? userId)%Z)
                  sample_documents with
  | Some d => Resolved (Some (snd d))
  | None => Rejected
  end.

Definition sample_DocumentPage : string -> Result (View Z (Z * string) unit unit) :=
  DocumentPage Z (Z * string) unit unit (fun u => u) snd (fun _ => "DRAFT")
    (Resolved 7) sample_getDocumentById
    (fun _ _ => Resolved [tt]) (fun _ _ => Resolved []).

Example page_of_own_document :
  sample_DocumentPage "1" =
    Rendered {| heading := "Contract.pdf"; status := "DRAFT";
                recipients_badge := Some 1%nat;
                form_document := (7, "Contract.pdf"); form_user := 7;
                form_recipients := [tt]; form_fields := [] |}.
Proof. vm_compute. reflexivity. Qed.

(** The id ["12abc"] is not numeric, and document 2 is not owned by the
    signed-in user: both requests are redirected. *)
Lemma DocumentPage_redirects_witness :
  sample_DocumentPage "12abc" = Redirect "/documents" /\
  sample_DocumentPage "2" = Redirect "/documents".
Proof.
  split.
  - destruct (DocumentPage_redirects Z (Z * string) unit unit (fun u => u) snd
                (fun _ => "DRAFT") (Resolved 7) sample_getDocumentById
                (fun _ _ => Resolved [tt]) (fun _ _ => Resolved []) "12abc")
      as (H & _).
    apply H. right. vm_compute. reflexivity.
  - destruct (DocumentPage_redirects Z (Z * string) unit unit (fun u => u) snd
                (fun _ => "DRAFT") (Resolved 7) sample_getDocumentById
                (fun _ _ => Resolved [tt]) (fun _ _ => Resolved []) "2")
      as (_ & H & _).
    apply (H 7).
    + reflexivity.
    + left. vm_compute. reflexivity.
Defined.


Arguments heading {User Document Recipient Field}.
Arguments recipients_badge {User Document Recipient Field}.
Arguments form_document {User Document Recipient Field}.

Lemma DocumentPage_renders_iff_witness :
  exists v, sample_DocumentPage "1" = Rendered v /\
            heading v = "Contract.pdf" /\ recipients_badge v = Some 1%nat.
Proof.
  eexists. split.
  - apply (DocumentPage_renders_iff Z (Z * string) unit unit (fun u => u) snd
             (fun _ => "DRAFT") (Resolved 7) sample_getDocumentById
             (fun _ _ => Resolved [tt]) (fun _ _ => Resolved []) "1").
    split; [vm_compute; reflexivity|].
    exists 7, (7, "Contract.pdf"), [tt], [].
    split; [reflexivity|]. split; [vm_compute; reflexivity|].
    split; [reflexivity|]. split; reflexivity.
  - split; reflexivity.
Defined.

(** The same data layer with a recipients helper that rejects. *)
Lemma DocumentPage_failures_witness :
  DocumentPage Z (Z * string) unit unit (fun u => u) snd (fun _ => "DRAFT")
    (Resolved 7) sample_getDocumentById
    (fun _ _ => Rejected) (fun _ _ => Resolved []) "1" = Failed.
Proof.
  apply (DocumentPage_failures Z (Z * string) unit unit (fun u => u) snd
           (fun _ => "DRAFT") (Resolved 7) sample_getDocumentById
           (fun _ _ => Rejected) (fun _ _ => Resolved []) "1").
  split; [vm_compute; reflexivity|]. right.
  exists 7, (7, "Contract.pdf").
  split; [reflexivity|]. split; [vm_compute; reflexivity|].
  left. reflexivity.
Defined.

Lemma blank_or_text_id_redirects_witness :
  sample_DocumentPage "   " = Redirect "/documents" /\
  sample_DocumentPage " doc-1" = Redirect "/documents".
Proof.
  split.
  - apply (blank_or_text_id_redirects Z (Z * string) unit unit (fun u => u)
             snd (fun _ => "DRAFT") (Resolved 7) sample_getDocumentById
             (fun _ _ => Resolved [tt]) (fun _ _ => Resolved []) "   ").
    repeat constructor.
  - destruct (blank_or_text_id_redirects Z (Z * string) unit unit
                (fun u => u) snd (fun _ => "DRAFT") (Resolved 7)
                sample_getDocumentById
                (fun _ _ => Resolved [tt]) (fun _ _ => Resolved []) " doc-1")
      as [_ H].
    apply (H "d"%char (list_ascii_of_string "oc-1")); reflexivity.
Defined.

(** The id ["01"] is document 1. *)
Lemma decimal_id_looked_up_by_value_witness :
  exists v, sample_DocumentPage "01" = Rendered v /\
            form_document v = (7, "Contract.pdf").
Proof.
  destruct (decimal_id_looked_up_by_value Z (Z * string) unit unit
              (fun u => u) snd (fun _ => "DRAFT") (Resolved 7)
              sample_getDocumentById
              (fun _ _ => Resolved [tt]) (fun _ _ => Resolved [])
              [0; 1]%N) as (_ & _ & _ & H).
  - discriminate.
  - repeat constructor.
  - reflexivity.
  - destruct (H 7 (7, "Contract.pdf") [tt] []) as (v & Hv & Hd & _).
    + discriminate.
    + reflexivity.
    + vm_compute. reflexivity.
    + reflexivity.
    + reflexivity.
    + exists v. split; [exact Hv | exact Hd].
Defined.
End Page.

(** ** The Stripe webhook route *)

Module Webhook.

(** *** Requests, responses and Stripe events *)

(** A header of a Node request is a string, a list of strings, or
    absent from the map. *)
Inductive HeaderValue : Type :=
| HeaderString (s : string)
| HeaderList (l : list string).

Record NextApiRequest : Type := {
  headers : gmap string HeaderValue;
  raw_body : string
}.

(** [res.status(code).json({ success, message })]. *)
Record Response : Type := {
  status : Z;
  success : bool;
  message : string
}.

(** The fields of [Stripe.Checkout.Session] the handler reads. *)
Record Session : Type := {
  client_reference_id : option string;
  metadata : option (gmap string string)
}.

Record Event : Type := {
  type : string;
  data_object : Session
}.

(** [session.metadata?.key]. *)
Definition metadata_get (session : Session) (key : string) : option string :=
  match metadata session with
  | Some m => m !! key
  | None => None
  end.

(** *** The database

    Rows carry the columns the handler reads or writes; enumeration
    values are the strings Prisma uses for them, dates are timestamps. *)

Record User : Type := {
  user_id : Z;
  user_name : option string;
  user_email : string
}.

Record Document : Type := {
  document_id : Z;
  title : string;
  document_status : string;
  userId : Z;
  document : string;
  created : Z
}.

Record Recipient : Type := {
  recipient_id : Z;
  name : string;
  email : string;
  token : string;
  signedAt : Z;
  readStatus : string;
  sendStatus : string;
  signingStatus : string;
  recipient_documentId : Z
}.

Record Field : Type := {
  field_id : Z;
  field_documentId : Z;
  field_recipientId : Z;
  field_type : string;
  page : Z;
  positionX : Z;
  positionY : Z;
  inserted : bool;
  customText : string
}.

Record Signature : Type := {
  signature_id : Z;
  fieldId : Z;
  signature_recipientId : Z;
  signatureImageAsBase64 : option string;
  typedSignature : option string
}.

Record Db : Type := {
  users : list User;
  documents : list Document;
  recipients : list Recipient;
  fields : list Field;
  signatures : list Signature
}.

(** The calls the handler makes to the outside, in order. *)
Inductive Effect : Type :=
| ConsoleLog (args : list string)
| ConstructEvent (body sig : string)
| UserFindFirst (id : JS.Num)
| RedisGet (key : string)
| ReadFileSync (path : string)
| RandomBytes (size : Z)
| DocumentCreate (row : Document)
| RecipientCreate (row : Recipient)
| FieldCreate (row : Field)
| SignatureCreate (row : Signature)
| DocumentUpdate (id : Z) (pdf : string)
| InsertImageInPDF (pdf image : string) (x y : Z) (pageNumber : Z)
| InsertTextInPDF (pdf text : string) (x y : Z) (pageNumber : Z).

Record World : Type := {
  db : Db;
  effects : list Effect
}.

(** What the handler's process reads besides the request and the
    database: the webhook secret, the signature cache, the template file
    (base64 of [./public/documenso-supporter-pledge.pdf]), the clock and
    the hex string of the random bytes drawn for the recipient token. *)
Record Env : Type := {
  NEXT_PRIVATE_STRIPE_WEBHOOK_SECRET : option string;
  redis : gmap string string;
  pledge_pdf_base64 : string;
  now : Z;
  random_hex : string
}.

(** *** A state monad with exceptions *)

Inductive Outcome (A : Type) : Type :=
| Returned (a : A)
| Threw.

Arguments Returned {A}.
Arguments Threw {A}.

Definition M (A : Type) : Type := World -> Outcome A * World.

Definition ret {A : Type} (a : A) : M A := fun w => (Returned a, w).

Definition bind {A B : Type} (c : M A) (k : A -> M B) : M B :=
  fun w =>
    match c w with
    | (Returned a, w') => k a w'
    | (Threw, w') => (Threw, w')
    end.

Definition throw {A : Type} : M A := fun w => (Threw, w).

Notation "x <- c ;; k" := (bind c (fun x => k))
  (at level 100, c at next level, right associativity).
Notation "c ;;; k" := (bind c (fun _ => k))
  (at level 100, right associativity).

Definition emit (e : Effect) : M unit :=
  fun w => (Returned tt, {| db := db w; effects := (effects w ++ [e])%list |}).

Definition get_db : M Db := fun w => (Returned (db w), w).

Definition put_db (d : Db) : M unit :=
  fun w => (Returned tt, {| db := d; effects := effects w |}).

(** The id an auto-increment column gives the next row. *)
Definition next_id (ids : list Z) : Z := 1 + fold_right Z.max 0 ids.

(** [log(...args)]: [console.log('[stripe]', ...args)]. *)
Definition log (args : list string) : M unit :=
  emit (ConsoleLog ("[stripe]" :: args)).

(** [buffer(req)]. *)
Definition buffer (req : NextApiRequest) : M string := ret (raw_body req).

(** [prisma.user.findFirst({ where: { id } })]. *)
Definition user_findFirst (id : JS.Num) : M (option User) :=
  emit (UserFindFirst id) ;;;
  d <- get_db ;;
  ret (List.find (fun u => JS.eq_int id (user_id u)) (users d)).

(** [prisma.document.create({ data })]: the row gets the next id and is
    returned. *)
Definition document_create (title : string) (status : string) (userId : Z)
    (document : string) (created : Z) : M Document :=
  d <- get_db ;;
  let row := {| document_id := next_id (map document_id (documents d));
                title := title;
                document_status := status;
                userId := userId;
                document := document;
                created := created |} in
  emit (DocumentCreate row) ;;;
  put_db {| users := users d;
            documents := (documents d ++ [row])%list;
            recipients := recipients d;
            fields := fields d;
            signatures := signatures d |} ;;;
  ret row.

Definition recipient_create (name email token : string) (signedAt : Z)
    (readStatus sendStatus signingStatus : string) (documentId : Z)
  : M Recipient :=
  d <- get_db ;;
  let row := {| recipient_id := next_id (map recipient_id (recipients d));
                name := name;
                email := email;
                token := token;
                signedAt := signedAt;
                readStatus := readStatus;
                sendStatus := sendStatus;
                signingStatus := signingStatus;
                recipient_documentId := documentId |} in
  emit (RecipientCreate row) ;;;
  put_db {| users := users d;
            documents := documents d;
            recipients := (recipients d ++ [row])%list;
            fields := fields d;
            signatures := signatures d |} ;;;
  ret row.

Definition field_create (documentId recipientId : Z) (type : string)
    (page positionX positionY : Z) (inserted : bool) (customText : string)
  : M Field :=
  d <- get_db ;;
  let row := {| field_id := next_id (map field_id (fields d));
                field_documentId := documentId;
                field_recipientId := recipientId;
                field_type := type;
                page := page;
                positionX := positionX;
                positionY := positionY;
                inserted := inserted;
                customText := customText |} in
  emit (FieldCreate row) ;;;
  put_db {| users := users d;
            documents := documents d;
            recipients := recipients d;
            fields := (fields d ++ [row])%list;
            signatures := signatures d |} ;;;
  ret row.

Definition signature_create (fieldId recipientId : Z)
    (signatureImageAsBase64 typedSignature : option string) : M Signature :=
  d <- get_db ;;
  let row := {| signature_id := next_id (map signature_id (signatures d));
                fieldId := fieldId;
                signature_recipientId := recipientId;
                signatureImageAsBase64 := signatureImageAsBase64;
                typedSignature := typedSignature |} in
  emit (SignatureCreate row) ;;;
  put_db {| users := users d;
            documents := documents d;
            recipients := recipients d;
            fields := fields d;
            signatures := (signatures d ++ [row])%list |} ;;;
  ret row.

Definition set_document (pdf : string) (row : Document) : Document :=
  {| document_id := document_id row;
     title := title row;
     document_status := document_status row;
     userId := userId row;
     document := pdf;
     created := created row |}.

(** [prisma.document.update({ where: { id }, data: { document } })]: the
    row with that id gets the new contents; it throws when there is no
    such row. *)
Definition document_update (id : Z) (pdf : string) : M unit :=
  emit (DocumentUpdate id pdf) ;;;
  d <- get_db ;;
  if existsb (fun row => (document_id row =? id)%Z) (documents d) then
    put_db {| users := users d;
              documents :=
                map (fun row => if (document_id row =? id)%Z
                                then set_document pdf row else row)
                    (documents d);
              recipients := recipients d;
              fields := fields d;
              signatures := signatures d |}
  else throw.

Section Handler.

(** [stripe.webhooks.constructEvent(body, sig, secret)] of the Stripe
    SDK ([None]: it throws, as it does on a signature that does not
    verify), the two PDF helpers of [@documenso/lib/server-only/pdf], and
    the process environment. *)
Variable constructEvent : string -> string -> option string -> option Event.
Variable insertImageInPDF : string -> string -> Z -> Z -> Z -> string.
Variable insertTextInPDF : string -> string -> Z -> Z -> Z -> string.
Variable env : Env.

Definition stripe_constructEvent (body sig : string) : M Event :=
  emit (ConstructEvent body sig) ;;;
  match constructEvent body sig (NEXT_PRIVATE_STRIPE_WEBHOOK_SECRET env) with
  | Some event => ret event
  | None => throw
  end.

(** [redis.get<string>(key)]: the cached string, or [null]. *)
Definition redis_get (key : string) : M (option string) :=
  emit (RedisGet key) ;;; ret (redis env !! key).

Definition readFileSync_base64 (path : string) : M string :=
  emit (ReadFileSync path) ;;; ret (pledge_pdf_base64 env).

Definition randomBytes_hex (size : Z) : M string :=
  emit (RandomBytes size) ;;; ret (random_hex env).

Definition call_insertImageInPDF (pdf image : string) (x y pageNumber : Z)
  : M string :=
  emit (InsertImageInPDF pdf image x y pageNumber) ;;;
  ret (insertImageInPDF pdf image x y pageNumber).

Definition call_insertTextInPDF (pdf text : string) (x y pageNumber : Z)
  : M string :=
  emit (InsertTextInPDF pdf text x y pageNumber) ;;;
  ret (insertTextInPDF pdf text x y pageNumber).

Definition json (status : Z) (success : bool) (message : string) : Response :=
  {| status := status; success := success; message := message |}.

(** The header read as the handler reads it: the value when it is a
    string, the empty string otherwise. *)
Definition stripe_signature (req : NextApiRequest) : string :=
  match headers req !! "stripe-signature" with
  | Some (HeaderString s) => s
  | _ => ""
  end.

(** The cached signature image named by the metadata, or the empty
    string: the cache is asked only when the metadata holds a non-empty
    key, and only a non-empty result is kept. *)
Definition fetch_signatureDataUrl (session : Session) : M string :=
  match metadata_get session "signatureDataUrl" with
  | Some key =>
      if JS.truthy key then
        result <- redis_get ("signature:" ++ key) ;;
        ret (if JS.truthy_opt result then JS.nullish result "" else "")
      else ret ""
  | None => ret ""
  end.

(** The body of [if (session.metadata?.source === 'landing')]:
    [Some response] when it returns from the handler, [None] when it
    falls through to the end of the enclosing block. *)
Definition landing (session : Session) : M (option Response) :=
  user <- user_findFirst (JS.Number_nullable (client_reference_id session)) ;;
  match user with
  | None => ret (Some (json 500 false "User not found"))
  | Some user =>
      let signatureText :=
        JS.or_else (metadata_get session "signatureText") (user_name user) in
      signatureDataUrl <- fetch_signatureDataUrl session ;;
      let now := now env in
      pdf <- readFileSync_base64 "./public/documenso-supporter-pledge.pdf" ;;
      doc <- document_create "Documenso Supporter Pledge.pdf" "COMPLETED"
                    (user_id user) pdf now ;;
      token <- randomBytes_hex 16 ;;
      recipient <- recipient_create (JS.nullish (user_name user) "")
                     (user_email user) token now "OPENED" "SENT" "SIGNED"
                     (document_id doc) ;;
      field <- field_create (document_id doc) (recipient_id recipient)
                 "SIGNATURE" 0 77 638 false "" ;;
      stamped <-
        (if JS.truthy signatureDataUrl then
           call_insertImageInPDF (document doc) signatureDataUrl
             (positionX field) (positionY field) (page field)
         else
           call_insertTextInPDF (document doc)
             (JS.nullish signatureText "")
             (positionX field) (positionY field) (page field)) ;;
      signature_create (field_id field) (recipient_id recipient)
        (if JS.truthy signatureDataUrl then Some signatureDataUrl else None)
        (if JS.truthy signatureDataUrl then Some "" else signatureText) ;;;
      document_update (document_id doc) stamped ;;;
      ret None
  end.

Definition handler (req : NextApiRequest) : M Response :=
  let sig := stripe_signature req in
  if negb (JS.truthy sig) then
    ret (json 400 false "No signature found in request")
  else
    log ["constructing body..."] ;;;
    body <- buffer req ;;
    log ["constructed body"] ;;;
    event <- stripe_constructEvent body sig ;;
    log ["event-type:"; type event] ;;;
    if String.eqb (type event) "checkout.session.completed" then
      let session := data_object event in
      returned <-
        (if decide (metadata_get session "source" = Some "landing")
         then landing session
         else ret None) ;;
      match returned with
      | Some response => ret response
      | None => ret (json 200 true "Webhook received")
      end
    else
      log ["Unhandled webhook event"; type event] ;;;
      ret (json 400 false "Unhandled webhook event").

(** *** The handler's runs, case by case *)

(** What [fetch_signatureDataUrl] returns and which calls it makes. *)
Definition cached_signature (session : Session) : string :=
  match metadata_get session "signatureDataUrl" with
  | Some key =>
      if JS.truthy key then
        match redis env !! ("signature:" ++ key) with
        | Some image => if JS.truthy image then image else ""
        | None => ""
        end
      else ""
  | None => ""
  end.

Definition cache_calls (session : Session) : list Effect :=
  match metadata_get session "signatureDataUrl" with
  | Some key => if JS.truthy key then [RedisGet ("signature:" ++ key)] else []
  | None => []
  end.

(** The rows a run of [landing] for an existing user creates, the PDF it
    stores, the calls it makes, and the world it ends in. *)
Definition typed_signature (session : Session) (user : User) : option string :=
  JS.or_else (metadata_get session "signatureText") (user_name user).

Definition new_document (user : User) (d : Db) : Document :=
  {| document_id := next_id (map document_id (documents d));
     title := "Documenso Supporter Pledge.pdf";
     document_status := "COMPLETED";
     userId := user_id user;
     document := pledge_pdf_base64 env;
     created := now env |}.

Definition new_recipient (user : User) (d : Db) : Recipient :=
  {| recipient_id := next_id (map recipient_id (recipients d));
     name := JS.nullish (user_name user) "";
     email := user_email user;
     token := random_hex env;
     signedAt := now env;
     readStatus := "OPENED";
     sendStatus := "SENT";
     signingStatus := "SIGNED";
     recipient_documentId := document_id (new_document user d) |}.

Definition new_field (user : User) (d : Db) : Field :=
  {| field_id := next_id (map field_id (fields d));
     field_documentId := document_id (new_document user d);
     field_recipientId := recipient_id (new_recipient user d);
     field_type := "SIGNATURE";
     page := 0;
     positionX := 77;
     positionY := 638;
     inserted := false;
     customText := "" |}.

Definition stamped (session : Session) (user : User) : string :=
  if JS.truthy (cached_signature session) then
    insertImageInPDF (pledge_pdf_base64 env) (cached_signature session) 77 638 0
  else
    insertTextInPDF (pledge_pdf_base64 env)
      (JS.nullish (typed_signature session user) "") 77 638 0.

Definition stamp_call (session : Session) (user : User) : Effect :=
  if JS.truthy (cached_signature session) then
    InsertImageInPDF (pledge_pdf_base64 env) (cached_signature session) 77 638 0
  else
    InsertTextInPDF (pledge_pdf_base64 env)
      (JS.nullish (typed_signature session user) "") 77 638 0.

Definition new_signature (session : Session) (user : User) (d : Db) : Signature :=
  {| signature_id := next_id (map signature_id (signatures d));
     fieldId := field_id (new_field user d);
     signature_recipientId := recipient_id (new_recipient user d);
     signatureImageAsBase64 :=
       if JS.truthy (cached_signature session)
       then Some (cached_signature session) else None;
     typedSignature :=
       if JS.truthy (cached_signature session)
       then Some "" else typed_signature session user |}.

Definition landing_calls (session : Session) (user : User) (d : Db)
  : list Effect :=
  ([UserFindFirst (JS.Number_nullable (client_reference_id session))] ++
   cache_calls session ++
   [ReadFileSync "./public/documenso-supporter-pledge.pdf";
    DocumentCreate (new_document user d);
    RandomBytes 16;
    RecipientCreate (new_recipient user d);
    FieldCreate (new_field user d);
    stamp_call session user;
    SignatureCreate (new_signature session user d);
    DocumentUpdate (document_id (new_document user d)) (stamped session user)])%list.

Definition landed (session : Session) (user : User) (w : World) : World :=
  let d := db w in
  {| db := {| users := users d;
              documents :=
                (documents d ++
                 [set_document (stamped session user) (new_document user d)])%list;
              recipients := (recipients d ++ [new_recipient user d])%list;
              fields := (fields d ++ [new_field user d])%list;
              signatures := (signatures d ++ [new_signature session user d])%list |};
     effects := (effects w ++ landing_calls session user d)%list |}.

Lemma next_id_gt (ids : list Z) (x : Z) : In x ids -> x < next_id ids.
Proof.
  unfold next_id. induction ids as [|y ids IH]; simpl; [tauto|].
  intros [-> | H]; [lia | specialize (IH H); lia].
Qed.

Lemma update_other_rows (id : Z) (pdf : string) (l : list Document) :
  (forall row, In row l -> document_id row <> id) ->
  map (fun row => if (document_id row =? id)%Z then set_document pdf row else row) l = l.
Proof.
  induction l as [|row l IH]; simpl; [reflexivity|].
  intros H. rewrite IH by (intros r Hr; apply H; right; exact Hr).
  destruct (Z.eqb_spec (document_id row) id) as [E|_]; [|reflexivity].
  exfalso. apply (H row); [left; reflexivity | exact E].
Qed.

Lemma document_update_last (w : World) (l : list Document) (row : Document)
    (id : Z) (pdf : string) :
  documents (db w) = (l ++ [row])%list ->
  document_id row = id ->
  id = next_id (map document_id l) ->
  document_update id pdf w =
    (Returned tt,
     {| db := {| users := users (db w);
                 documents := (l ++ [set_document pdf row])%list;
                 recipients := recipients (db w);
                 fields := fields (db w);
                 signatures := signatures (db w) |};
        effects := (effects w ++ [DocumentUpdate id pdf])%list |}).
Proof.
  intros Hdocs Hrow Hid.
  unfold document_update, bind, emit, get_db, put_db, throw. simpl.
  rewrite Hdocs, existsb_app. simpl. rewrite Hrow, Z.eqb_refl, orb_true_r.
  rewrite map_app. simpl. rewrite Hrow, Z.eqb_refl.
  rewrite update_other_rows; [reflexivity|].
  intros r Hr E.
  assert (document_id r < next_id (map document_id l))
    by (apply next_id_gt, in_map, Hr).
  lia.
Qed.

Lemma fetch_signatureDataUrl_run (session : Session) (w : World) :
  fetch_signatureDataUrl session w =
    (Returned (cached_signature session),
     {| db := db w; effects := (effects w ++ cache_calls session)%list |}).
Proof.
  unfold fetch_signatureDataUrl, cached_signature, cache_calls.
  destruct w as [d e].
  destruct (metadata_get session "signatureDataUrl") as [key|];
    [destruct (JS.truthy key) eqn:Hk|]; simpl;
    try (unfold ret; rewrite app_nil_r; reflexivity).
  unfold bind, redis_get, emit, ret. simpl.
  destruct (redis env !! _) as [image|]; simpl; [|reflexivity].
  destruct (JS.truthy image); reflexivity.
Qed.

Lemma landing_user_not_found (session : Session) (w : World) :
  List.find (fun u => JS.eq_int (JS.Number_nullable (client_reference_id session))
                        (user_id u)) (users (db w)) = None ->
  landing session w =
    (Returned (Some (json 500 false "User not found")),
     {| db := db w;
        effects :=
          (effects w ++
           [UserFindFirst (JS.Number_nullable (client_reference_id session))])%list |}).
Proof.
  intros H. unfold landing, bind, user_findFirst, emit, get_db, ret. simpl.
  rewrite H. reflexivity.
Qed.

Lemma landing_user_found (session : Session) (user : User) (w : World) :
  List.find (fun u => JS.eq_int (JS.Number_nullable (client_reference_id session))
                        (user_id u)) (users (db w)) = Some user ->
  landing session w = (Returned None, landed session user w).
Proof.
  intros H. unfold landing. unfold bind at 1.
  unfold user_findFirst, bind, emit, get_db, ret. simpl. rewrite H.
  unfold bind. rewrite fetch_signatureDataUrl_run.
  unfold readFileSync_base64, document_create, randomBytes_hex,
    recipient_create, field_create, signature_create, bind, emit, get_db,
    put_db, ret. simpl.
  unfold landed, landing_calls, stamped, stamp_call, new_signature, new_field,
    new_recipient, new_document, typed_signature.
  destruct (JS.truthy (cached_signature session)); simpl;
    unfold call_insertImageInPDF, call_insertTextInPDF, bind, emit, ret; simpl.
  - erewrite document_update_last; simpl; try reflexivity.
    rewrite <- !app_assoc. reflexivity.
  - erewrite document_update_last; simpl; try reflexivity.
    rewrite <- !app_assoc. reflexivity.
Qed.

(** The calls every run makes once the signature header was found and
    the event constructed. *)
Definition started (req : NextApiRequest) (event : Event) : list Effect :=
  [ConsoleLog ["[stripe]"; "constructing body..."];
   ConsoleLog ["[stripe]"; "constructed body"];
   ConstructEvent (raw_body req) (stripe_signature req);
   ConsoleLog ["[stripe]"; "event-type:"; type event]].

Definition after (made : list Effect) (w : World) : World :=
  {| db := db w; effects := (effects w ++ made)%list |}.

(** The user the handler finds for a session. *)
Definition paying_user (session : Session) (w : World) : option User :=
  List.find (fun u => JS.eq_int (JS.Number_nullable (client_reference_id session))
                        (user_id u)) (users (db w)).

Lemma handler_no_signature (req : NextApiRequest) (w : World) :
  JS.truthy (stripe_signature req) = false ->
  handler req w = (Returned (json 400 false "No signature found in request"), w).
Proof. intros H. unfold handler. rewrite H. reflexivity. Qed.

Lemma handler_construct_throws (req : NextApiRequest) (w : World) :
  JS.truthy (stripe_signature req) = true ->
  constructEvent (raw_body req) (stripe_signature req)
    (NEXT_PRIVATE_STRIPE_WEBHOOK_SECRET env) = None ->
  fst (handler req w) = Threw.
Proof.
  intros Hs Hc. unfold handler. rewrite Hs. simpl.
  unfold bind, log, buffer, stripe_constructEvent, bind, emit, ret, throw.
  simpl. rewrite Hc. reflexivity.
Qed.

Lemma handler_unhandled (req : NextApiRequest) (w : World) (event : Event) :
  JS.truthy (stripe_signature req) = true ->
  constructEvent (raw_body req) (stripe_signature req)
    (NEXT_PRIVATE_STRIPE_WEBHOOK_SECRET env) = Some event ->
  type event <> "checkout.session.completed" ->
  handler req w =
    (Returned (json 400 false "Unhandled webhook event"),
     after (started req event ++
            [ConsoleLog ["[stripe]"; "Unhandled webhook event"; type event]]) w).
Proof.
  intros Hs Hc Ht. unfold handler. rewrite Hs. simpl.
  unfold bind, log, buffer, stripe_constructEvent, bind, emit, ret, throw.
  simpl. rewrite Hc.
  destruct (String.eqb_spec (type event) "checkout.session.completed") as [E|_];
    [contradiction|].
  unfold after, started. simpl. rewrite <- !app_assoc. reflexivity.
Qed.

Lemma handler_other_source (req : NextApiRequest) (w : World) (event : Event) :
  JS.truthy (stripe_signature req) = true ->
  constructEvent (raw_body req) (stripe_signature req)
    (NEXT_PRIVATE_STRIPE_WEBHOOK_SECRET env) = Some event ->
  type event = "checkout.session.completed" ->
  metadata_get (data_object event) "source" <> Some "landing" ->
  handler req w =
    (Returned (json 200 true "Webhook received"), after (started req event) w).
Proof.
  intros Hs Hc Ht Hm. unfold handler. rewrite Hs. simpl.
  unfold bind, log, buffer, stripe_constructEvent, bind, emit, ret, throw.
  simpl. rewrite Hc, Ht. simpl.
  destruct (decide (metadata_get (data_object event) "source" = Some "landing"))
    as [E|_]; [contradiction|].
  unfold after, started. simpl. rewrite Ht, <- !app_assoc. reflexivity.
Qed.

Lemma handler_landing (req : NextApiRequest) (w : World) (event : Event) :
  JS.truthy (stripe_signature req) = true ->
  constructEvent (raw_body req) (stripe_signature req)
    (NEXT_PRIVATE_STRIPE_WEBHOOK_SECRET env) = Some event ->
  type event = "checkout.session.completed" ->
  metadata_get (data_object event) "source" = Some "landing" ->
  handler req w =
    match paying_user (data_object event) w with
    | None =>
        (Returned (json 500 false "User not found"),
         after (started req event ++
                [UserFindFirst (JS.Number_nullable
                                  (client_reference_id (data_object event)))]) w)
    | Some user =>
        (Returned (json 200 true "Webhook received"),
         landed (data_object event) user (after (started req event) w))
    end.
Proof.
  intros Hs Hc Ht Hm. unfold handler. rewrite Hs. simpl.
  unfold bind at 1 2 3 4 5.
  unfold log, buffer, stripe_constructEvent, bind, emit, ret, throw.
  simpl. rewrite Hc, Ht. simpl.
  destruct (decide (metadata_get (data_object event) "source" = Some "landing"))
    as [_|E]; [|contradiction].
  assert (Hw : {| db := db w;
                  effects := ((((effects w ++
                      [ConsoleLog ["[stripe]"; "constructing body..."]]) ++
                      [ConsoleLog ["[stripe]"; "constructed body"]]) ++
                      [ConstructEvent (raw_body req) (stripe_signature req)]) ++
                      [ConsoleLog ["[stripe]"; "event-type:";
                                   "checkout.session.completed"]])%list |} =
               after (started req event) w).
  { unfold after, started. rewrite Ht, <- !app_assoc. reflexivity. }
  rewrite Hw. unfold paying_user.
  destruct (List.find _ (users (db w))) as [user|] eqn:Hu.
  - rewrite (landing_user_found _ user); [reflexivity | exact Hu].
  - rewrite landing_user_not_found by exact Hu.
    unfold after, started. simpl. rewrite Ht, <- !app_assoc. reflexivity.
Qed.

(** The handler returned a response with this status code. *)
Definition responds (run : Outcome Response * World) (code : Z) : Prop :=
  exists r, fst run = Returned r /\ status r = code.

Lemma cache_calls_redis (session : Session) (e : Effect) :
  In e (cache_calls session) -> exists key, e = RedisGet key.
Proof.
  unfold cache_calls.
  destruct (metadata_get session "signatureDataUrl") as [key|]; [|intros []].
  destruct (JS.truthy key); [|intros []].
  intros [<- | []]. eexists. reflexivity.
Qed.

Lemma handler_landing_found (req : NextApiRequest) (w : World)
    (event : Event) (user : User) :
  JS.truthy (stripe_signature req) = true ->
  constructEvent (raw_body req) (stripe_signature req)
    (NEXT_PRIVATE_STRIPE_WEBHOOK_SECRET env) = Some event ->
  type event = "checkout.session.completed" ->
  metadata_get (data_object event) "source" = Some "landing" ->
  paying_user (data_object event) w = Some user ->
  handler req w =
    (Returned (json 200 true "Webhook received"),
     {| db := db (landed (data_object event) user w);
        effects :=
          (effects w ++ started req event ++
           landing_calls (data_object event) user (db w))%list |}).
Proof.
  intros Hs Hc Ht Hm Hu. rewrite (handler_landing _ _ _ Hs Hc Ht Hm), Hu.
  unfold landed, after. simpl. rewrite <- app_assoc. reflexivity.
Qed.

(** The only PDF call of a run is its [stamp_call]. *)
Lemma stamp_call_only (req : NextApiRequest) (event : Event) (user : User)
    (d : Db) (e : Effect) :
  In e (started req event ++ landing_calls (data_object event) user d) ->
  match e with
  | InsertImageInPDF _ _ _ _ _ | InsertTextInPDF _ _ _ _ _ => True
  | _ => False
  end ->
  e = stamp_call (data_object event) user.
Proof.
  unfold landing_calls. rewrite !in_app_iff. simpl.
  intros [H | [H | [H | H]]] He.
  - repeat (destruct H as [<- | H]; [destruct He|]). destruct H.
  - destruct H as [<- | []]. destruct He.
  - apply cache_calls_redis in H as [key ->]. destruct He.
  - destruct H as [<- | H]; [destruct He|].
    destruct H as [<- | H]; [destruct He|].
    destruct H as [<- | H]; [destruct He|].
    destruct H as [<- | H]; [destruct He|].
    destruct H as [<- | H]; [destruct He|].
    destruct H as [<- | H]; [reflexivity|].
    destruct H as [<- | H]; [destruct He|].
    destruct H as [<- | H]; [destruct He|]. destruct H.
Qed.

Lemma stamp_call_made (req : NextApiRequest) (event : Event) (user : User)
    (d : Db) :
  In (stamp_call (data_object event) user)
     (started req event ++ landing_calls (data_object event) user d).
Proof.
  unfold landing_calls. rewrite !in_app_iff. simpl. tauto.
Qed.

Lemma cached_signature_hit (session : Session) (key image : string) :
  metadata_get session "signatureDataUrl" = Some key ->
  JS.truthy key = true ->
  redis env !! ("signature:" ++ key) = Some image ->
  JS.truthy image = true ->
  cached_signature session = image.
Proof.
  intros Hk Hkt Hr Hit. unfold cached_signature.
  rewrite Hk, Hkt, Hr, Hit. reflexivity.
Qed.

Lemma cached_signature_miss (session : Session) :
  metadata_get session "signatureDataUrl" = None \/
  metadata_get session "signatureDataUrl" = Some "" \/
  (exists key, metadata_get session "signatureDataUrl" = Some key /\
               (redis env !! ("signature:" ++ key) = None \/
                redis env !! ("signature:" ++ key) = Some "")) ->
  cached_signature session = "".
Proof.
  unfold cached_signature.
  intros [-> | [-> | (key & -> & Hr)]]; try reflexivity.
  destruct (JS.truthy key); [|reflexivity].
  destruct Hr as [-> | ->]; reflexivity.
Qed.

Lemma typed_signature_text (session : Session) (user : User) :
  JS.nullish (typed_signature session user) "" =
    match metadata_get session "signatureText" with
    | Some (String c t) => String c t
    | _ => JS.nullish (user_name user) ""
    end.
Proof.
  unfold typed_signature, JS.or_else.
  destruct (metadata_get session "signatureText") as [[|c t]|]; reflexivity.
Qed.

(** *** Properties of the handler *)

(** C2. The status code of every run: 400 when the request has no
    [stripe-signature] header (or one that is not a non-empty string),
    400 when the event is of another type than
    [checkout.session.completed], 500 when the user looked up for a
    landing checkout does not exist, and 200 exactly when the signature
    header was there, the event was constructed, it is a completed
    checkout, and the user lookup, if one was made, found the user. *)
Theorem handler_status (req : NextApiRequest) (w : World) :
  (headers req !! "stripe-signature" = None -> responds (handler req w) 400) /\
  (JS.truthy (stripe_signature req) = false -> responds (handler req w) 400) /\
  (forall event,
     JS.truthy (stripe_signature req) = true ->
     constructEvent (raw_body req) (stripe_signature req)
       (NEXT_PRIVATE_STRIPE_WEBHOOK_SECRET env) = Some event ->
     type event <> "checkout.session.completed" ->
     responds (handler req w) 400) /\
  (forall event,
     JS.truthy (stripe_signature req) = true ->
     constructEvent (raw_body req) (stripe_signature req)
       (NEXT_PRIVATE_STRIPE_WEBHOOK_SECRET env) = Some event ->
     type event = "checkout.session.completed" ->
     metadata_get (data_object event) "source" = Some "landing" ->
     paying_user (data_object event) w = None ->
     responds (handler req w) 500) /\
  (responds (handler req w) 200 <->
   JS.truthy (stripe_signature req) = true /\
   exists event,
     constructEvent (raw_body req) (stripe_signature req)
       (NEXT_PRIVATE_STRIPE_WEBHOOK_SECRET env) = Some event /\
     type event = "checkout.session.completed" /\
     (metadata_get (data_object event) "source" = Some "landing" ->
      exists user, paying_user (data_object event) w = Some user)).
Proof.
  assert (Hno : JS.truthy (stripe_signature req) = false ->
                responds (handler req w) 400).
  { intros H. rewrite (handler_no_signature _ _ H). eexists.
    split; reflexivity. }
  split; [|split; [exact Hno|split; [|split]]].
  - intros H. apply Hno. unfold stripe_signature. rewrite H. reflexivity.
  - intros event Hs Hc Ht. rewrite (handler_unhandled _ _ _ Hs Hc Ht).
    eexists. split; reflexivity.
  - intros event Hs Hc Ht Hm Hu. rewrite (handler_landing _ _ _ Hs Hc Ht Hm), Hu.
    eexists. split; reflexivity.
  - split.
    + intros (r & Hr & Hst).
      destruct (JS.truthy (stripe_signature req)) eqn:Hs.
      2:{ rewrite (handler_no_signature _ _ Hs) in Hr. simpl in Hr.
          injection Hr as <-. discriminate. }
      split; [reflexivity|].
      destruct (constructEvent (raw_body req) (stripe_signature req)
                  (NEXT_PRIVATE_STRIPE_WEBHOOK_SECRET env)) as [event|] eqn:Hc.
      2:{ rewrite (handler_construct_throws _ _ Hs Hc) in Hr. discriminate. }
      exists event. split; [reflexivity|].
      destruct (String.eqb_spec (type event) "checkout.session.completed")
        as [Ht|Ht].
      2:{ rewrite (handler_unhandled _ _ _ Hs Hc Ht) in Hr. simpl in Hr.
          injection Hr as <-. discriminate. }
      split; [exact Ht|]. intros Hm.
      rewrite (handler_landing _ _ _ Hs Hc Ht Hm) in Hr.
      destruct (paying_user (data_object event) w) as [user|].
      * exists user. reflexivity.
      * simpl in Hr. injection Hr as <-. discriminate.
    + intros (Hs & event & Hc & Ht & Hu).
      destruct (decide (metadata_get (data_object event) "source" = Some "landing"))
        as [Hm|Hm].
      * destruct (Hu Hm) as [user Huser].
        rewrite (handler_landing _ _ _ Hs Hc Ht Hm), Huser.
        eexists. split; reflexivity.
      * rewrite (handler_other_source _ _ _ Hs Hc Ht Hm).
        eexists. split; reflexivity.
Qed.

(** C3, as the code has it. A completed checkout whose metadata source
    is [landing] and whose client reference id matches no user is
    answered with 500, and the database is left as it was. *)
Theorem landing_unknown_user_500 (req : NextApiRequest) (w : World)
    (event : Event) :
  JS.truthy (stripe_signature req) = true ->
  constructEvent (raw_body req) (stripe_signature req)
    (NEXT_PRIVATE_STRIPE_WEBHOOK_SECRET env) = Some event ->
  type event = "checkout.session.completed" ->
  metadata_get (data_object event) "source" = Some "landing" ->
  paying_user (data_object event) w = None ->
  fst (handler req w) = Returned (json 500 false "User not found") /\
  db (snd (handler req w)) = db w.
Proof.
  intros Hs Hc Ht Hm Hu. rewrite (handler_landing _ _ _ Hs Hc Ht Hm), Hu.
  split; reflexivity.
Qed.

(** C8. A completed checkout whose metadata source is absent or is not
    [landing] is answered with 200; the run looks no user up (it only
    logs and constructs the event), and the database is left as it was. *)
Theorem other_source_no_lookup (req : NextApiRequest) (w : World)
    (event : Event) :
  JS.truthy (stripe_signature req) = true ->
  constructEvent (raw_body req) (stripe_signature req)
    (NEXT_PRIVATE_STRIPE_WEBHOOK_SECRET env) = Some event ->
  type event = "checkout.session.completed" ->
  metadata_get (data_object event) "source" = None \/
  (exists source, metadata_get (data_object event) "source" = Some source /\
                  source <> "landing") ->
  fst (handler req w) = Returned (json 200 true "Webhook received") /\
  db (snd (handler req w)) = db w /\
  exists made,
    effects (snd (handler req w)) = (effects w ++ made)%list /\
    (forall id, ~ In (UserFindFirst id) made) /\
    (forall e, In e made ->
       match e with
       | ConsoleLog _ | ConstructEvent _ _ => True
       | _ => False
       end).
Proof.
  intros Hs Hc Ht Hm.
  assert (Hm' : metadata_get (data_object event) "source" <> Some "landing").
  { destruct Hm as [-> | (source & -> & Hne)]; congruence. }
  rewrite (handler_other_source _ _ _ Hs Hc Ht Hm').
  split; [reflexivity|]. split; [reflexivity|].
  exists (started req event). split; [reflexivity|].
  assert (Hmade : forall e, In e (started req event) ->
            match e with
            | ConsoleLog _ | ConstructEvent _ _ => True
            | _ => False
            end).
  { intros e He. simpl in He.
    repeat (destruct He as [<- | He]; [exact I|]). destruct He. }
  split; [|exact Hmade].
  intros id Hin. exact (Hmade _ Hin).
Qed.

(** C1, as the code has it. For a landing checkout of an existing user
    the run adds one document. When the metadata holds a non-empty cache
    key under which the cache holds a non-empty image, the stored PDF is
    [insertImageInPDF] of the template and that image, and no text is
    inserted. Otherwise (no key, an empty key, a miss or an empty cached
    value) it is [insertTextInPDF] of the template and the typed text:
    the metadata [signatureText] when it is there and not empty, else
    the user's name, else the empty string; no image is inserted. *)
Theorem landing_stamps_image_or_text (req : NextApiRequest) (w : World)
    (event : Event) (user : User) :
  JS.truthy (stripe_signature req) = true ->
  constructEvent (raw_body req) (stripe_signature req)
    (NEXT_PRIVATE_STRIPE_WEBHOOK_SECRET env) = Some event ->
  type event = "checkout.session.completed" ->
  metadata_get (data_object event) "source" = Some "landing" ->
  paying_user (data_object event) w = Some user ->
  exists doc made,
    documents (db (snd (handler req w))) = (documents (db w) ++ [doc])%list /\
    effects (snd (handler req w)) = (effects w ++ made)%list /\
    (forall key image,
       metadata_get (data_object event) "signatureDataUrl" = Some key ->
       JS.truthy key = true ->
       redis env !! ("signature:" ++ key) = Some image ->
       JS.truthy image = true ->
       document doc =
         insertImageInPDF (pledge_pdf_base64 env) image 77 638 0 /\
       In (InsertImageInPDF (pledge_pdf_base64 env) image 77 638 0) made /\
       forall pdf text x y p, ~ In (InsertTextInPDF pdf text x y p) made) /\
    (metadata_get (data_object event) "signatureDataUrl" = None \/
     metadata_get (data_object event) "signatureDataUrl" = Some "" \/
     (exists key,
        metadata_get (data_object event) "signatureDataUrl" = Some key /\
        (redis env !! ("signature:" ++ key) = None \/
         redis env !! ("signature:" ++ key) = Some "")) ->
     forall text,
       text = match metadata_get (data_object event) "signatureText" with
              | Some (String c t) => String c t
              | _ => JS.nullish (user_name user) ""
              end ->
       document doc =
         insertTextInPDF (pledge_pdf_base64 env) text 77 638 0 /\
       In (InsertTextInPDF (pledge_pdf_base64 env) text 77 638 0) made /\
       forall pdf image x y p, ~ In (InsertImageInPDF pdf image x y p) made).
Proof.
  intros Hs Hc Ht Hm Hu. rewrite (handler_landing_found _ _ _ _ Hs Hc Ht Hm Hu).
  unfold landed. cbn [snd db effects documents].
  eexists. eexists. split; [reflexivity|]. split; [reflexivity|].
  pose proof (stamp_call_made req event user (db w)) as Hin.
  pose proof (stamp_call_only req event user (db w)) as Honly.
  split.
  - intros key image Hk Hkt Hr Hit.
    pose proof (cached_signature_hit _ _ _ Hk Hkt Hr Hit) as Himg.
    unfold stamped, stamp_call in *. rewrite Himg, Hit in *. simpl.
    split; [reflexivity|]. split; [exact Hin|].
    intros pdf text x y p H. specialize (Honly _ H I). discriminate.
  - intros Hmiss text ->.
    pose proof (cached_signature_miss _ Hmiss) as Himg.
    unfold stamped, stamp_call in *. rewrite Himg in *. simpl in *.
    rewrite typed_signature_text in *.
    split; [reflexivity|]. split; [exact Hin|].
    intros pdf image x y p H. specialize (Honly _ H I). discriminate.
Qed.

(** C4. For a handled landing checkout the field row is created with
    page 0, x 77 and y 638; a stamping call is made, and every stamping
    call of the run carries the field's coordinates and page. *)
Theorem landing_field_coordinates (req : NextApiRequest) (w : World)
    (event : Event) (user : User) :
  JS.truthy (stripe_signature req) = true ->
  constructEvent (raw_body req) (stripe_signature req)
    (NEXT_PRIVATE_STRIPE_WEBHOOK_SECRET env) = Some event ->
  type event = "checkout.session.completed" ->
  metadata_get (data_object event) "source" = Some "landing" ->
  paying_user (data_object event) w = Some user ->
  exists field made,
    fields (db (snd (handler req w))) = (fields (db w) ++ [field])%list /\
    effects (snd (handler req w)) = (effects w ++ made)%list /\
    In (FieldCreate field) made /\
    page field = 0 /\ positionX field = 77 /\ positionY field = 638 /\
    (exists pdf content,
       In (InsertImageInPDF pdf content 77 638 0) made \/
       In (InsertTextInPDF pdf content 77 638 0) made) /\
    (forall pdf content x y p,
       In (InsertImageInPDF pdf content x y p) made \/
       In (InsertTextInPDF pdf content x y p) made ->
       x = positionX field /\ y = positionY field /\ p = page field).
Proof.
  intros Hs Hc Ht Hm Hu. rewrite (handler_landing_found _ _ _ _ Hs Hc Ht Hm Hu).
  unfold landed. cbn [snd db effects fields].
  exists (new_field user (db w)). eexists.
  split; [reflexivity|]. split; [reflexivity|].
  split; [unfold landing_calls; rewrite !in_app_iff; simpl; tauto|].
  do 3 (split; [reflexivity|]).
  pose proof (stamp_call_made req event user (db w)) as Hin.
  pose proof (stamp_call_only req event user (db w)) as Honly.
  unfold stamp_call in *.
  destruct (JS.truthy (cached_signature (data_object event))).
  - split; [do 2 eexists; left; exact Hin|].
    intros pdf content x y p [H|H]; specialize (Honly _ H I);
      [injection Honly as -> -> -> -> ->; simpl; auto | discriminate].
  - split; [do 2 eexists; right; exact Hin|].
    intros pdf content x y p [H|H]; specialize (Honly _ H I);
      [discriminate | injection Honly as -> -> -> -> ->; simpl; auto].
Qed.

(** C9, as the code has it. The run of a handled landing checkout
    creates one signature row. When an image was stamped, the row holds
    that image and the empty string as typed signature. When text was
    stamped, the row holds no image, and its typed signature is the
    metadata's text when that is not empty and the user's name
    otherwise: it is the stamped text, except that it is null, and the
    stamped text empty, exactly when the user has no name and the
    metadata gave no text. The row never holds both a non-empty image
    and a non-empty typed signature. *)
Theorem signature_modalities (req : NextApiRequest) (w : World)
    (event : Event) (user : User) :
  JS.truthy (stripe_signature req) = true ->
  constructEvent (raw_body req) (stripe_signature req)
    (NEXT_PRIVATE_STRIPE_WEBHOOK_SECRET env) = Some event ->
  type event = "checkout.session.completed" ->
  metadata_get (data_object event) "source" = Some "landing" ->
  paying_user (data_object event) w = Some user ->
  exists sg made,
    signatures (db (snd (handler req w))) = (signatures (db w) ++ [sg])%list /\
    effects (snd (handler req w)) = (effects w ++ made)%list /\
    In (SignatureCreate sg) made /\
    ((exists pdf image,
        In (InsertImageInPDF pdf image 77 638 0) made /\
        JS.truthy image = true /\
        signatureImageAsBase64 sg = Some image /\
        typedSignature sg = Some "") \/
     (exists pdf text,
        In (InsertTextInPDF pdf text 77 638 0) made /\
        signatureImageAsBase64 sg = None /\
        typedSignature sg =
          match metadata_get (data_object event) "signatureText" with
          | Some (String c t) => Some (String c t)
          | _ => user_name user
          end /\
        text = JS.nullish (typedSignature sg) "" /\
        (typedSignature sg = None <->
         user_name user = None /\
         JS.truthy_opt (metadata_get (data_object event) "signatureText") =
           false))) /\
    ~ (JS.truthy_opt (signatureImageAsBase64 sg) = true /\
       JS.truthy_opt (typedSignature sg) = true).
Proof.
  intros Hs Hc Ht Hm Hu. rewrite (handler_landing_found _ _ _ _ Hs Hc Ht Hm Hu).
  unfold landed. cbn [snd db effects signatures].
  exists (new_signature (data_object event) user (db w)). eexists.
  split; [reflexivity|]. split; [reflexivity|].
  split; [unfold landing_calls; rewrite !in_app_iff; simpl; tauto|].
  pose proof (stamp_call_made req event user (db w)) as Hin.
  unfold stamp_call in Hin. unfold new_signature. simpl.
  destruct (JS.truthy (cached_signature (data_object event))) eqn:Himg.
  - split.
    + left. do 2 eexists. split; [exact Hin|]. repeat split. exact Himg.
    + simpl. intros [_ H]. discriminate.
  - split.
    + right. do 2 eexists. split; [exact Hin|]. split; [reflexivity|].
      unfold typed_signature, JS.or_else.
      destruct (metadata_get (data_object event) "signatureText")
        as [[|c t]|]; simpl.
      * split; [reflexivity|]. split; [reflexivity|].
        split; [intros H; auto | intros [H _]; exact H].
      * split; [reflexivity|]. split; [reflexivity|].
        split; [discriminate | intros [_ H]; discriminate].
      * split; [reflexivity|]. split; [reflexivity|].
        split; [intros H; auto | intros [H _]; exact H].
    + simpl. intros [H _]. discriminate.
Qed.

(** *** Further properties of the handler *)

Lemma handler_forged (req : NextApiRequest) (w : World) :
  JS.truthy (stripe_signature req) = true ->
  constructEvent (raw_body req) (stripe_signature req)
    (NEXT_PRIVATE_STRIPE_WEBHOOK_SECRET env) = None ->
  handler req w =
    (Threw,
     after [ConsoleLog ["[stripe]"; "constructing body..."];
            ConsoleLog ["[stripe]"; "constructed body"];
            ConstructEvent (raw_body req) (stripe_signature req)] w).
Proof.
  intros Hs Hc. unfold handler. rewrite Hs. simpl.
  unfold bind, log, buffer, stripe_constructEvent, bind, emit, ret, throw.
  simpl. rewrite Hc. unfold after. rewrite <- !app_assoc. reflexivity.
Qed.

(** The six ways a run of the handler can go. *)
Inductive Run (req : NextApiRequest) (w : World) : Prop :=
| RunNoSignature :
    JS.truthy (stripe_signature req) = false ->
    handler req w =
      (Returned (json 400 false "No signature found in request"), w) ->
    Run req w
| RunThrew :
    JS.truthy (stripe_signature req) = true ->
    constructEvent (raw_body req) (stripe_signature req)
      (NEXT_PRIVATE_STRIPE_WEBHOOK_SECRET env) = None ->
    handler req w =
      (Threw,
       after [ConsoleLog ["[stripe]"; "constructing body..."];
              ConsoleLog ["[stripe]"; "constructed body"];
              ConstructEvent (raw_body req) (stripe_signature req)] w) ->
    Run req w
| RunUnhandled (event : Event) :
    type event <> "checkout.session.completed" ->
    handler req w =
      (Returned (json 400 false "Unhandled webhook event"),
       after (started req event ++
              [ConsoleLog ["[stripe]"; "Unhandled webhook event"; type event]]) w) ->
    Run req w
| RunOtherSource (event : Event) :
    metadata_get (data_object event) "source" <> Some "landing" ->
    handler req w =
      (Returned (json 200 true "Webhook received"),
       after (started req event) w) ->
    Run req w
| RunNoUser (event : Event) :
    paying_user (data_object event) w = None ->
    handler req w =
      (Returned (json 500 false "User not found"),
       after (started req event ++
              [UserFindFirst (JS.Number_nullable
                                (client_reference_id (data_object event)))]) w) ->
    Run req w
| RunLanded (event : Event) (user : User) :
    paying_user (data_object event) w = Some user ->
    handler req w =
      (Returned (json 200 true "Webhook received"),
       {| db := db (landed (data_object event) user w);
          effects :=
            (effects w ++ started req event ++
             landing_calls (data_object event) user (db w))%list |}) ->
    Run req w.

Lemma handler_run (req : NextApiRequest) (w : World) : Run req w.
Proof.
  destruct (JS.truthy (stripe_signature req)) eqn:Hs.
  2:{ apply RunNoSignature; [exact Hs | apply handler_no_signature, Hs]. }
  destruct (constructEvent (raw_body req) (stripe_signature req)
              (NEXT_PRIVATE_STRIPE_WEBHOOK_SECRET env)) as [event|] eqn:Hc.
  2:{ apply RunThrew; [exact Hs | exact Hc | apply handler_forged; assumption]. }
  destruct (String.eqb_spec (type event) "checkout.session.completed") as [Ht|Ht].
  2:{ apply (RunUnhandled _ _ event); [exact Ht|].
      apply handler_unhandled; assumption. }
  destruct (decide (metadata_get (data_object event) "source" = Some "landing"))
    as [Hm|Hm].
  2:{ apply (RunOtherSource _ _ event); [exact Hm|].
      apply handler_other_source; assumption. }
  destruct (paying_user (data_object event) w) as [user|] eqn:Hu.
  - apply (RunLanded _ _ event user); [exact Hu|].
    apply handler_landing_found; assumption.
  - apply (RunNoUser _ _ event); [exact Hu|].
    rewrite (handler_landing _ _ _ Hs Hc Ht Hm), Hu. reflexivity.
Qed.

Lemma app_eq_self {A : Type} (l k : list A) : (l ++ k)%list = l -> k = [].
Proof.
  intros H. apply (f_equal (@length A)) in H. rewrite length_app in H.
  destruct k; [reflexivity | simpl in H; lia].
Qed.

(** X1. A request whose signature does not verify ([constructEvent]
    throws) gets no response from the handler: the exception leaves it.
    The database is as it was, and the run did nothing but log and call
    [constructEvent]. *)
Theorem forged_signature_throws (req : NextApiRequest) (w : World) :
  JS.truthy (stripe_signature req) = true ->
  constructEvent (raw_body req) (stripe_signature req)
    (NEXT_PRIVATE_STRIPE_WEBHOOK_SECRET env) = None ->
  fst (handler req w) = Threw /\
  (forall code, ~ responds (handler req w) code) /\
  db (snd (handler req w)) = db w /\
  exists made,
    effects (snd (handler req w)) = (effects w ++ made)%list /\
    In (ConstructEvent (raw_body req) (stripe_signature req)) made /\
    forall e, In e made ->
      match e with
      | ConsoleLog _ | ConstructEvent _ _ => True
      | _ => False
      end.
Proof.
  intros Hs Hc. rewrite (handler_forged _ _ Hs Hc). simpl.
  split; [reflexivity|]. split.
  - intros code (r & Hr & _). discriminate.
  - split; [reflexivity|]. eexists. split; [reflexivity|]. split.
    + simpl. tauto.
    + intros e He. simpl in He.
      repeat (destruct He as [<- | He]; [exact I|]). destruct He.
Qed.

(** X2. A request whose [stripe-signature] header is absent or empty is
    answered 400 at once: the world is left exactly as it was, no log
    line is written and the body is never handed to [constructEvent].
    Conversely a run that leaves no trace read no non-empty signature
    from the header. *)
Theorem unusable_header_leaves_no_trace (req : NextApiRequest) (w : World) :
  (headers req !! "stripe-signature" = None \/
   headers req !! "stripe-signature" = Some (HeaderString "") ->
   handler req w =
     (Returned (json 400 false "No signature found in request"), w)) /\
  (effects (snd (handler req w)) = effects w ->
   forall c s,
     headers req !! "stripe-signature" <> Some (HeaderString (String c s))).
Proof.
  split.
  - intros H. apply handler_no_signature. unfold stripe_signature.
    destruct H as [-> | ->]; reflexivity.
  - intros He c s Hh.
    assert (Hs : JS.truthy (stripe_signature req) = true)
      by (unfold stripe_signature; rewrite Hh; reflexivity).
    destruct (handler_run req w) as [Hs' _ | _ _ H | ev _ H | ev _ H
                                    | ev _ H | ev u _ H];
      [congruence | | | | |]; rewrite H in He; simpl in He;
      apply app_eq_self in He; discriminate He.
Qed.

(** X3. Whatever the request, the handler leaves the users table and
    every existing row alone. With every awaited call succeeding, a run
    either writes nothing, or it answers 200 and has added exactly one
    row to each of the documents, recipients, fields and signatures
    tables. *)
Theorem handler_writes_nothing_or_one_row_each (req : NextApiRequest)
    (w : World) :
  users (db (snd (handler req w))) = users (db w) /\
  (exists made, effects (snd (handler req w)) = (effects w ++ made)%list) /\
  (db (snd (handler req w)) = db w \/
   (responds (handler req w) 200 /\
    exists doc recipient field sg,
      documents (db (snd (handler req w))) = (documents (db w) ++ [doc])%list /\
      recipients (db (snd (handler req w))) =
        (recipients (db w) ++ [recipient])%list /\
      fields (db (snd (handler req w))) = (fields (db w) ++ [field])%list /\
      signatures (db (snd (handler req w))) =
        (signatures (db w) ++ [sg])%list)).
Proof.
  destruct (handler_run req w) as [_ H | _ _ H | ev _ H | ev _ H
                                  | ev _ H | ev u _ H];
    rewrite H; simpl.
  - split; [reflexivity|]. split; [|left; reflexivity].
    exists []. rewrite app_nil_r. reflexivity.
  - split; [reflexivity|]. split; [eexists; reflexivity | left; reflexivity].
  - split; [reflexivity|]. split; [eexists; reflexivity | left; reflexivity].
  - split; [reflexivity|]. split; [eexists; reflexivity | left; reflexivity].
  - split; [reflexivity|]. split; [eexists; reflexivity | left; reflexivity].
  - split; [reflexivity|]. split; [eexists; reflexivity|]. right.
    split; [eexists; split; reflexivity|].
    do 4 eexists. repeat split.
Qed.

(** X4. The rows a handled landing checkout creates are linked to each
    other and to the paying user: the document belongs to the user, the
    recipient carries the user's e-mail (and name, empty when null) and
    points to the document, the field points to the document and the
    recipient, and the signature points to the field and the recipient.
    The recipient is signed at the time the document was created. *)
Theorem landing_rows_linked (req : NextApiRequest) (w : World)
    (event : Event) (user : User) :
  JS.truthy (stripe_signature req) = true ->
  constructEvent (raw_body req) (stripe_signature req)
    (NEXT_PRIVATE_STRIPE_WEBHOOK_SECRET env) = Some event ->
  type event = "checkout.session.completed" ->
  metadata_get (data_object event) "source" = Some "landing" ->
  paying_user (data_object event) w = Some user ->
  exists doc recipient field sg,
    documents (db (snd (handler req w))) = (documents (db w) ++ [doc])%list /\
    recipients (db (snd (handler req w))) =
      (recipients (db w) ++ [recipient])%list /\
    fields (db (snd (handler req w))) = (fields (db w) ++ [field])%list /\
    signatures (db (snd (handler req w))) = (signatures (db w) ++ [sg])%list /\
    userId doc = user_id user /\
    document_status doc = "COMPLETED" /\
    email recipient = user_email user /\
    name recipient = JS.nullish (user_name user) "" /\
    signingStatus recipient = "SIGNED" /\
    signedAt recipient = created doc /\
    recipient_documentId recipient = document_id doc /\
    field_documentId field = document_id doc /\
    field_recipientId field = recipient_id recipient /\
    fieldId sg = field_id field /\
    signature_recipientId sg = recipient_id recipient.
Proof.
  intros Hs Hc Ht Hm Hu. rewrite (handler_landing_found _ _ _ _ Hs Hc Ht Hm Hu).
  unfold landed. cbn [snd db documents recipients fields signatures].
  do 4 eexists. repeat split.
Qed.

(** X8. A handled landing checkout asks the signature cache only when the
    metadata holds a non-empty cache key, and then for that key under
    the [signature:] prefix and for nothing else. *)
Theorem cache_asked_only_for_metadata_key (req : NextApiRequest) (w : World)
    (event : Event) (user : User) :
  JS.truthy (stripe_signature req) = true ->
  constructEvent (raw_body req) (stripe_signature req)
    (NEXT_PRIVATE_STRIPE_WEBHOOK_SECRET env) = Some event ->
  type event = "checkout.session.completed" ->
  metadata_get (data_object event) "source" = Some "landing" ->
  paying_user (data_object event) w = Some user ->
  exists made,
    effects (snd (handler req w)) = (effects w ++ made)%list /\
    forall asked,
      In (RedisGet asked) made <->
      exists key,
        metadata_get (data_object event) "signatureDataUrl" = Some key /\
        JS.truthy key = true /\
        asked = "signature:" ++ key.
Proof.
  intros Hs Hc Ht Hm Hu. rewrite (handler_landing_found _ _ _ _ Hs Hc Ht Hm Hu).
  cbn [snd effects]. eexists. split; [reflexivity|].
  intros asked. unfold landing_calls, cache_calls, stamp_call, started.
  rewrite !in_app_iff. split.
  - intros [H | [H | [H | H]]].
    + simpl in H. repeat (destruct H as [H|H]; [discriminate|]). destruct H.
    + simpl in H. destruct H as [H|[]]. discriminate.
    + destruct (metadata_get (data_object event) "signatureDataUrl")
        as [key|]; [|destruct H].
      destruct (JS.truthy key) eqn:Hk; [|destruct H].
      destruct H as [H|[]]. injection H as <-. exists key. auto.
    + simpl in H.
      destruct (JS.truthy (cached_signature (data_object event)));
        repeat (destruct H as [H|H]; [discriminate|]); destruct H.
  - intros (key & Hkey & Hk & ->). right. right. left.
    rewrite Hkey, Hk. left. reflexivity.
Qed.

Lemma NoDup_map_injective_on {A B : Type} (f : A -> B) (l : list A) (a b : A) :
  NoDup (map f l) -> In a l -> In b l -> f a = f b -> a = b.
Proof.
  induction l as [|x l IH]; simpl; [intros _ []|].
  intros Hnd Ha Hb Hf. apply NoDup_cons in Hnd as [Hx Hnd].
  assert (Hnot : forall y, In y l -> f y <> f x).
  { intros y Hy E. apply Hx. rewrite <- E. apply list_elem_of_In.
    apply in_map, Hy. }
  destruct Ha as [<- | Ha], Hb as [<- | Hb].
  - reflexivity.
  - exfalso. apply (Hnot b Hb). symmetry. exact Hf.
  - exfalso. apply (Hnot a Ha). exact Hf.
  - exact (IH Hnd Ha Hb Hf).
Qed.

(** X9. With distinct user ids, the user a checkout is looked up as is
    the one its client reference id names in decimal digits (leading
    zeros allowed, value below [2^53]): when such a user exists the
    lookup finds exactly that user, and when none exists it finds no
    one. *)
Theorem decimal_reference_finds_user_by_id (session : Session) (w : World)
    (ds : list N) :
  NoDup (map user_id (users (db w))) ->
  client_reference_id session = Some (JS.digits_string ds) ->
  ds <> [] ->
  Forall (fun d => (d < 10)%N) ds ->
  JS.digits_value 10 ds < 2 ^ 53 ->
  (forall user, In user (users (db w)) ->
                user_id user = JS.digits_value 10 ds ->
                paying_user session w = Some user) /\
  ((forall user, In user (users (db w)) ->
                 user_id user <> JS.digits_value 10 ds) ->
   paying_user session w = None).
Proof.
  intros Hnd Hid Hne Hds Hlt. unfold paying_user. rewrite Hid. simpl.
  assert (Heq : forall u,
            JS.eq_int (JS.Number (JS.digits_string ds)) (user_id u) =
            (JS.digits_value 10 ds =? user_id u)%Z).
  { intros u. apply (JS.Number_of_decimal_digits ds (user_id u) Hne Hds Hlt). }
  split.
  - intros user Hin Huser.
    destruct (List.find _ (users (db w))) as [found|] eqn:Hf.
    + apply find_some in Hf as [Hfin Hfid]. rewrite Heq in Hfid.
      apply Z.eqb_eq in Hfid. f_equal.
      apply (NoDup_map_injective_on user_id (users (db w)) found user Hnd Hfin Hin).
      congruence.
    + pose proof (find_none _ _ Hf user Hin) as Hno. cbv beta in Hno.
      rewrite Heq in Hno.
      apply Z.eqb_neq in Hno. congruence.
  - intros Hnone.
    destruct (List.find _ (users (db w))) as [found|] eqn:Hf; [|reflexivity].
    apply find_some in Hf as [Hfin Hfid]. rewrite Heq in Hfid.
    apply Z.eqb_eq in Hfid. exfalso. apply (Hnone found Hfin). congruence.
Qed.

End Handler.

(** X6. The handler does not recognise an event it has handled before.
    A second delivery of a landing checkout it has handled, whatever the
    cache, the clock, the template and the random token are by then, is
    answered 200 again and appends a second document row for the same
    user beside the first. *)
Theorem landing_replay_adds_second_document
    (constructEvent : string -> string -> option string -> option Event)
    (insertImageInPDF insertTextInPDF : string -> string -> Z -> Z -> Z -> string)
    (env env' : Env) (req : NextApiRequest) (w : World) (event : Event)
    (user : User) :
  JS.truthy (stripe_signature req) = true ->
  constructEvent (raw_body req) (stripe_signature req)
    (NEXT_PRIVATE_STRIPE_WEBHOOK_SECRET env) = Some event ->
  constructEvent (raw_body req) (stripe_signature req)
    (NEXT_PRIVATE_STRIPE_WEBHOOK_SECRET env') = Some event ->
  type event = "checkout.session.completed" ->
  metadata_get (data_object event) "source" = Some "landing" ->
  paying_user (data_object event) w = Some user ->
  responds
    (handler constructEvent insertImageInPDF insertTextInPDF env' req
       (snd (handler constructEvent insertImageInPDF insertTextInPDF env
               req w))) 200 /\
  exists first second,
    documents
      (db (snd (handler constructEvent insertImageInPDF insertTextInPDF env'
                  req
                  (snd (handler constructEvent insertImageInPDF
                          insertTextInPDF env req w))))) =
      (documents (db w) ++ [first; second])%list /\
    userId first = user_id user /\
    userId second = user_id user.
Proof.
  intros Hs Hc Hc' Ht Hm Hu.
  rewrite (handler_landing_found constructEvent insertImageInPDF
             insertTextInPDF env _ _ _ _ Hs Hc Ht Hm Hu).
  cbn [snd].
  match goal with
  | |- context [handler _ _ _ env' req ?w1] =>
      assert (Hu1 : paying_user (data_object event) w1 = Some user)
        by exact Hu;
      rewrite (handler_landing_found constructEvent insertImageInPDF
                 insertTextInPDF env' req w1 event user Hs Hc' Ht Hm Hu1)
  end.
  split; [eexists; split; reflexivity|].
  unfold landed. cbn [snd db documents]. rewrite <- app_assoc. simpl.
  do 2 eexists. split; [reflexivity|]. split; reflexivity.
Qed.

(** *** A concrete deployment

    Two users, one cached signature image, and a [constructEvent] that
    verifies one signature and reads the event off the body. *)

Definition sample_session (ref : string) (md : list (string * string)) : Session :=
  {| client_reference_id := Some ref; metadata := Some (list_to_map md) |}.

Definition sample_events : list (string * Event) :=
  [("landing_image",
    {| type := "checkout.session.completed";
       data_object := sample_session "1"
         [("source", "landing"); ("signatureDataUrl", "abc")] |});
   ("landing_text",
    {| type := "checkout.session.completed";
       data_object := sample_session "1"
         [("source", "landing"); ("signatureText", "Ada L.")] |});
   ("landing_empty_text",
    {| type := "checkout.session.completed";
       data_object := sample_session "1"
         [("source", "landing"); ("signatureText", "")] |});
   ("landing_no_name",
    {| type := "checkout.session.completed";
       data_object := sample_session "2" [("source", "landing")] |});
   ("landing_unknown_user",
    {| type := "checkout.session.completed";
       data_object := sample_session "999" [("source", "landing")] |});
   ("app_unknown_user",
    {| type := "checkout.session.completed";
       data_object := sample_session "999" [("source", "app")] |});
   ("invoice",
    {| type := "invoice.paid";
       data_object := {| client_reference_id := None; metadata := None |} |})].

Definition sample_constructEvent (body sig : string) (secret : option string)
  : option Event :=
  if String.eqb sig "t=1,v1=5257a8" && bool_decide (secret = Some "whsec_test")
  then snd <$> List.find (fun e => String.eqb (fst e) body) sample_events
  else None.

Definition sample_insertImageInPDF (pdf image : string) (x y p : Z) : string :=
  pdf ++ "+image:" ++ image.

Definition sample_insertTextInPDF (pdf text : string) (x y p : Z) : string :=
  pdf ++ "+text:" ++ text.

Definition sample_env : Env :=
  {| NEXT_PRIVATE_STRIPE_WEBHOOK_SECRET := Some "whsec_test";
     redis := {[ "signature:abc" := "data:image/png;base64,iVBORw0KGgo=" ]};
     pledge_pdf_base64 := "JVBERi0xLjcK";
     now := 1700000000;
     random_hex := "000102030405060708090a0b0c0d0e0f" |}.

Definition sample_world : World :=
  {| db := {| users := [ {| user_id := 1; user_name := Some "Ada";
                            user_email := "ada@example.com" |};
                         {| user_id := 2; user_name := None;
                            user_email := "anon@example.com" |} ];
              documents := [];
              recipients := [];
              fields := [];
              signatures := [] |};
     effects := [] |}.

Definition sample_request (body : string) : NextApiRequest :=
  {| headers := {[ "stripe-signature" := HeaderString "t=1,v1=5257a8" ]};
     raw_body := body |}.

Definition sample_handler : NextApiRequest -> M Response :=
  handler sample_constructEvent sample_insertImageInPDF
    sample_insertTextInPDF sample_env.

Definition sample_signature : string := "t=1,v1=5257a8".

Definition run_sample (body : string) : Outcome Response * World :=
  sample_handler (sample_request body) sample_world.

Example run_invoice : fst (run_sample "invoice") =
  Returned (json 400 false "Unhandled webhook event").
Proof. vm_compute. reflexivity. Qed.

Example run_forged : fst (run_sample "unsigned") = Threw.
Proof. vm_compute. reflexivity. Qed.

Example run_landing_text :
  map document (documents (db (snd (run_sample "landing_text")))) =
    ["JVBERi0xLjcK+text:Ada L."].
Proof. vm_compute. reflexivity. Qed.

(** A request without the header, and a landing checkout of user 1. *)
Lemma handler_status_witness :
  responds (sample_handler {| headers := ∅; raw_body := "landing_text" |}
              sample_world) 400 /\
  responds (run_sample "landing_text") 200.
Proof.
  split.
  - apply (handler_status sample_constructEvent sample_insertImageInPDF
             sample_insertTextInPDF sample_env
             {| headers := ∅; raw_body := "landing_text" |} sample_world).
    reflexivity.
  - apply (handler_status sample_constructEvent sample_insertImageInPDF
             sample_insertTextInPDF sample_env
             (sample_request "landing_text") sample_world).
    split; [reflexivity|]. eexists. split; [reflexivity|].
    split; [reflexivity|]. intros _. eexists. reflexivity.
Defined.

(** A landing checkout whose client reference id, 999, is no user's. *)
Lemma landing_unknown_user_500_witness :
  fst (run_sample "landing_unknown_user") =
    Returned (json 500 false "User not found") /\
  db (snd (run_sample "landing_unknown_user")) = db sample_world.
Proof.
  eapply (landing_unknown_user_500 sample_constructEvent
            sample_insertImageInPDF sample_insertTextInPDF sample_env
            (sample_request "landing_unknown_user") sample_world);
    reflexivity.
Defined.

(** C3 as stated fails: a completed checkout whose metadata source is
    [app] and whose client reference id matches no user is answered with
    200, not 500. *)
Lemma checkout_unknown_user_answered_200 :
  exists event,
    sample_constructEvent "app_unknown_user" sample_signature
      (Some "whsec_test") = Some event /\
    type event = "checkout.session.completed" /\
    paying_user (data_object event) sample_world = None /\
    fst (run_sample "app_unknown_user") =
      Returned (json 200 true "Webhook received") /\
    ~ responds (run_sample "app_unknown_user") 500.
Proof.
  eexists. split; [reflexivity|]. split; [reflexivity|].
  split; [vm_compute; reflexivity|]. split; [vm_compute; reflexivity|].
  intros (r & Hr & Hst). vm_compute in Hr. injection Hr as <-. discriminate.
Qed.

(** The same checkout from another source: no lookup, no write. *)
Lemma other_source_no_lookup_witness :
  fst (run_sample "app_unknown_user") =
    Returned (json 200 true "Webhook received") /\
  db (snd (run_sample "app_unknown_user")) = db sample_world.
Proof.
  destruct (other_source_no_lookup sample_constructEvent
              sample_insertImageInPDF sample_insertTextInPDF sample_env
              (sample_request "app_unknown_user") sample_world
              {| type := "checkout.session.completed";
                 data_object := sample_session "999" [("source", "app")] |})
    as (Hr & Hdb & _).
  - reflexivity.
  - reflexivity.
  - reflexivity.
  - right. exists "app". split; [reflexivity | discriminate].
  - split; [exact Hr | exact Hdb].
Defined.

(** A landing checkout with a cached image: the image is stamped. *)
Lemma landing_stamps_image_or_text_witness :
  exists doc,
    documents (db (snd (run_sample "landing_image"))) = [doc] /\
    document doc =
      sample_insertImageInPDF "JVBERi0xLjcK"
        "data:image/png;base64,iVBORw0KGgo=" 77 638 0.
Proof.
  destruct (landing_stamps_image_or_text sample_constructEvent
              sample_insertImageInPDF sample_insertTextInPDF sample_env
              (sample_request "landing_image") sample_world
              {| type := "checkout.session.completed";
                 data_object := sample_session "1"
                   [("source", "landing"); ("signatureDataUrl", "abc")] |}
              {| user_id := 1; user_name := Some "Ada";
                 user_email := "ada@example.com" |})
    as (doc & made & Hdocs & _ & Himage & _); try reflexivity.
  exists doc. split; [exact Hdocs|].
  apply (Himage "abc" "data:image/png;base64,iVBORw0KGgo="); reflexivity.
Defined.

(** C1 as stated fails: the metadata holds a [signatureText], the empty
    string, and no cache key; the text stamped is the user's name, not
    the metadata's text. *)
Lemma empty_signatureText_stamps_name :
  exists event user doc,
    sample_constructEvent "landing_empty_text" sample_signature
      (Some "whsec_test") = Some event /\
    type event = "checkout.session.completed" /\
    metadata_get (data_object event) "source" = Some "landing" /\
    paying_user (data_object event) sample_world = Some user /\
    metadata_get (data_object event) "signatureDataUrl" = None /\
    metadata_get (data_object event) "signatureText" = Some "" /\
    user_name user = Some "Ada" /\
    documents (db (snd (run_sample "landing_empty_text"))) = [doc] /\
    document doc = sample_insertTextInPDF "JVBERi0xLjcK" "Ada" 77 638 0 /\
    In (InsertTextInPDF "JVBERi0xLjcK" "Ada" 77 638 0)
       (effects (snd (run_sample "landing_empty_text"))) /\
    ~ In (InsertTextInPDF "JVBERi0xLjcK" "" 77 638 0)
         (effects (snd (run_sample "landing_empty_text"))).
Proof.
  do 3 eexists. split; [reflexivity|].
  do 3 (split; [vm_compute; reflexivity|]).
  do 3 (split; [vm_compute; reflexivity|]).
  split; [vm_compute; reflexivity|]. split; [vm_compute; reflexivity|].
  split.
  - vm_compute. repeat (first [left; reflexivity | right]).
  - vm_compute. intros H.
    repeat (destruct H as [H|H]; [discriminate|]). destruct H.
Qed.

(** A landing checkout with typed text: the field and the call carry
    page 0, x 77, y 638. *)
Lemma landing_field_coordinates_witness :
  exists field,
    fields (db (snd (run_sample "landing_text"))) = [field] /\
    page field = 0 /\ positionX field = 77 /\ positionY field = 638.
Proof.
  destruct (landing_field_coordinates sample_constructEvent
              sample_insertImageInPDF sample_insertTextInPDF sample_env
              (sample_request "landing_text") sample_world
              {| type := "checkout.session.completed";
                 data_object := sample_session "1"
                   [("source", "landing"); ("signatureText", "Ada L.")] |}
              {| user_id := 1; user_name := Some "Ada";
                 user_email := "ada@example.com" |})
    as (field & made & Hf & _ & _ & Hp & Hx & Hy & _); try reflexivity.
  exists field. auto.
Defined.

(** A landing checkout with a cached image: one signature row. *)
Lemma signature_modalities_witness :
  exists sg,
    signatures (db (snd (run_sample "landing_image"))) = [sg] /\
    ~ (JS.truthy_opt (signatureImageAsBase64 sg) = true /\
       JS.truthy_opt (typedSignature sg) = true).
Proof.
  destruct (signature_modalities sample_constructEvent
              sample_insertImageInPDF sample_insertTextInPDF sample_env
              (sample_request "landing_image") sample_world
              {| type := "checkout.session.completed";
                 data_object := sample_session "1"
                   [("source", "landing"); ("signatureDataUrl", "abc")] |}
              {| user_id := 1; user_name := Some "Ada";
                 user_email := "ada@example.com" |})
    as (sg & made & Hs & _ & _ & _ & Hboth); try reflexivity.
  exists sg. split; [exact Hs | exact Hboth].
Defined.

(** C9 as stated fails: for a user without a name and metadata without
    text, the empty string is stamped while the signature row's typed
    signature is null: the row holds neither an image nor the stamped
    text. *)
Lemma unnamed_user_signature_null :
  exists sg,
    signatures (db (snd (run_sample "landing_no_name"))) = [sg] /\
    In (InsertTextInPDF "JVBERi0xLjcK" "" 77 638 0)
       (effects (snd (run_sample "landing_no_name"))) /\
    signatureImageAsBase64 sg = None /\
    typedSignature sg = None /\
    typedSignature sg <> Some "".
Proof.
  eexists. split; [vm_compute; reflexivity|].
  split; [vm_compute; repeat (first [left; reflexivity | right])|].
  split; [reflexivity|]. split; [reflexivity|]. discriminate.
Qed.


(** A body signed with another key: the handler throws. *)
Lemma forged_signature_throws_witness :
  fst (run_sample "unsigned") = Threw /\
  db (snd (run_sample "unsigned")) = db sample_world.
Proof.
  destruct (forged_signature_throws sample_constructEvent
              sample_insertImageInPDF sample_insertTextInPDF sample_env
              (sample_request "unsigned") sample_world)
    as (H & _ & Hdb & _).
  - reflexivity.
  - reflexivity.
  - split; [exact H | exact Hdb].
Defined.

(** The header present and empty. *)
Lemma unusable_header_leaves_no_trace_witness :
  sample_handler
    {| headers := {[ "stripe-signature" := HeaderString "" ]};
       raw_body := "landing_text" |} sample_world =
    (Returned (json 400 false "No signature found in request"), sample_world).
Proof.
  apply (unusable_header_leaves_no_trace sample_constructEvent
           sample_insertImageInPDF sample_insertTextInPDF sample_env).
  right. reflexivity.
Defined.

Lemma landing_rows_linked_witness :
  exists doc recipient,
    documents (db (snd (run_sample "landing_no_name"))) = [doc] /\
    recipients (db (snd (run_sample "landing_no_name"))) = [recipient] /\
    userId doc = 2 /\
    email recipient = "anon@example.com" /\
    name recipient = "" /\
    recipient_documentId recipient = document_id doc.
Proof.
  destruct (landing_rows_linked sample_constructEvent
              sample_insertImageInPDF sample_insertTextInPDF sample_env
              (sample_request "landing_no_name") sample_world
              {| type := "checkout.session.completed";
                 data_object := sample_session "2" [("source", "landing")] |}
              {| user_id := 2; user_name := None;
                 user_email := "anon@example.com" |})
    as (doc & recipient & field & sg & Hd & Hr & _ & _ & Hu & _ & He & Hn & _
        & _ & Hl & _); try reflexivity.
  exists doc, recipient. repeat split; assumption.
Defined.

(** The second delivery arrives later, after the cache entry expired. *)
Definition sample_env_later : Env :=
  {| NEXT_PRIVATE_STRIPE_WEBHOOK_SECRET := Some "whsec_test";
     redis := ∅;
     pledge_pdf_base64 := "JVBERi0xLjcK";
     now := 1700003600;
     random_hex := "f0e0d0c0b0a090807060504030201000" |}.

Lemma landing_replay_adds_second_document_witness :
  exists first second,
    documents
      (db (snd (handler sample_constructEvent sample_insertImageInPDF
                  sample_insertTextInPDF sample_env_later
                  (sample_request "landing_image")
                  (snd (run_sample "landing_image"))))) = [first; second] /\
    userId first = 1 /\ userId second = 1.
Proof.
  destruct (landing_replay_adds_second_document sample_constructEvent
              sample_insertImageInPDF sample_insertTextInPDF
              sample_env sample_env_later
              (sample_request "landing_image") sample_world
              {| type := "checkout.session.completed";
                 data_object := sample_session "1"
                   [("source", "landing"); ("signatureDataUrl", "abc")] |}
              {| user_id := 1; user_name := Some "Ada";
                 user_email := "ada@example.com" |})
    as (_ & first & second & Hd & H1 & H2); try reflexivity.
  exists first, second. repeat split; assumption.
Defined.

Lemma cache_asked_only_for_metadata_key_witness :
  exists made,
    effects (snd (run_sample "landing_image")) =
      (effects sample_world ++ made)%list /\
    In (RedisGet "signature:abc") made.
Proof.
  destruct (cache_asked_only_for_metadata_key sample_constructEvent
              sample_insertImageInPDF sample_insertTextInPDF sample_env
              (sample_request "landing_image") sample_world
              {| type := "checkout.session.completed";
                 data_object := sample_session "1"
                   [("source", "landing"); ("signatureDataUrl", "abc")] |}
              {| user_id := 1; user_name := Some "Ada";
                 user_email := "ada@example.com" |})
    as (made & He & Hasked);
    [reflexivity | reflexivity | reflexivity | reflexivity | reflexivity |].
  exists made. split; [exact He|].
  apply Hasked. exists "abc".
  split; [reflexivity|]. split; reflexivity.
Defined.


(** User 1 named in decimal, and user 7 who does not exist. *)
Lemma decimal_reference_finds_user_by_id_witness :
  paying_user (sample_session "1" []) sample_world =
    Some {| user_id := 1; user_name := Some "Ada";
            user_email := "ada@example.com" |} /\
  paying_user (sample_session "07" []) sample_world = None.
Proof.
  split.
  - destruct (decimal_reference_finds_user_by_id (sample_session "1" [])
                sample_world [1]%N) as [H _].
    + apply (bool_decide_unpack _). vm_compute. exact I.
    + reflexivity.
    + discriminate.
    + repeat constructor.
    + reflexivity.
    + apply H; [left; reflexivity | reflexivity].
  - destruct (decimal_reference_finds_user_by_id (sample_session "07" [])
                sample_world [0; 7]%N) as [_ H].
    + apply (bool_decide_unpack _). vm_compute. exact I.
    + reflexivity.
    + discriminate.
    + repeat constructor.
    + reflexivity.
    + apply H. intros user [<- | [<- | []]]; discriminate.
Defined.

End Webhook.
